(** * prometheus-immich-exporter: the collection pipeline, the readiness
    probe and the signal handler of [immich_exporter/exporter.py]

    The Python code is embedded shallowly.  Python values are an inductive
    type, exceptions are an outcome of a small state-and-exception monad,
    the network is an oracle that answers the i-th request of the process,
    and every [while True] loop takes a fuel argument: running out of fuel
    is the outcome [Running], which stands for a loop that is still going. *)

From Stdlib Require Import ZArith List String Ascii Bool Lia DecimalString.
Import ListNotations.
Open Scope string_scope.
Open Scope Z_scope.
Set Warnings "-register-all".

(* ===================================================================== *)
(** * Python values *)
(* ===================================================================== *)

(** What the interpreter does with floats and how it quotes a string in
    [repr] is taken as an interface: the exporter only adds floats, prints
    them and passes them on. *)
Class Runtime := {
  float : Type;
  float_add : float -> float -> float;
  (** [float(n)]; [None] is OverflowError, an int too large for a float *)
  float_of_int : Z -> option float;
  float_repr : float -> string;
  str_repr : string -> string
}.

(** A runtime for documents that hold no float and whose strings need no
    escaping in [repr]. *)
Definition integer_runtime : Runtime := {|
  float := Empty_set;
  float_add := fun a _ => a;
  float_of_int := fun _ => None;
  float_repr := fun _ => EmptyString;
  str_repr := fun s => "'" ++ s ++ "'"
|}.

(** The exceptions the modelled code can raise. *)
Inductive exn : Type :=
  | RequestException
  | KeyError
  | TypeError
  | IndexError
  | AttributeError
  | UnboundLocalError
  | OverflowError
  | ValueError
  | UnicodeDecodeError
  | SystemExit (code : Z).

Definition exn_eqb (a b : exn) : bool :=
  match a, b with
  | RequestException, RequestException => true
  | KeyError, KeyError => true
  | TypeError, TypeError => true
  | IndexError, IndexError => true
  | AttributeError, AttributeError => true
  | UnboundLocalError, UnboundLocalError => true
  | OverflowError, OverflowError => true
  | ValueError, ValueError => true
  | UnicodeDecodeError, UnicodeDecodeError => true
  | SystemExit c, SystemExit d => Z.eqb c d
  | _, _ => false
  end.

(** The result of evaluating an expression: a value or an exception. *)
Inductive result (A : Type) : Type :=
  | Ok (a : A)
  | Err (e : exn).
Arguments Ok {A} a.
Arguments Err {A} e.

Definition rbind {A B} (r : result A) (k : A -> result B) : result B :=
  match r with
  | Ok a => k a
  | Err e => Err e
  end.

Section Values.
Context {RT : Runtime}.

(** A decoded JSON document, and more generally the values the exporter
    handles.  A str is a [string] read as a sequence of code points below
    256; a dict is the list of its items in insertion order, its keys are
    strs (as in every decoded JSON object) and a lookup takes the first
    binding of the key. *)
Inductive pyval : Type :=
  | PNone
  | PBool (b : bool)
  | PInt (z : Z)
  | PFloat (f : float)
  | PStr (s : string)
  | PList (l : list pyval)
  | PDict (d : list (string * pyval)).

Fixpoint lookup (k : string) (d : list (string * pyval)) : option pyval :=
  match d with
  | [] => None
  | (k', v) :: d' => if String.eqb k k' then Some v else lookup k d'
  end.

(** [v[k]] for a str key [k]. *)
Definition getitem (v : pyval) (k : string) : result pyval :=
  match v with
  | PDict d => match lookup k d with
               | Some x => Ok x
               | None => Err KeyError
               end
  | _ => Err TypeError
  end.

(** The character of a str at an index, as a str of length one. *)
Fixpoint char_at (s : string) (i : nat) : option string :=
  match s, i with
  | EmptyString, _ => None
  | String c _, O => Some (String c EmptyString)
  | String _ s', S i' => char_at s' i'
  end.

(** [v[i]] for an index [i] that comes from [range(0, len(v))]. *)
Definition getindex (v : pyval) (i : nat) : result pyval :=
  match v with
  | PList l => match nth_error l i with
               | Some x => Ok x
               | None => Err IndexError
               end
  | PStr s => match char_at s i with
              | Some c => Ok (PStr c)
              | None => Err IndexError
              end
  | PDict _ => Err KeyError
  | _ => Err TypeError
  end.

(** [len(v)] *)
Definition py_len (v : pyval) : result nat :=
  match v with
  | PList l => Ok (List.length l)
  | PDict d => Ok (List.length d)
  | PStr s => Ok (String.length s)
  | _ => Err TypeError
  end.

Definition int_to_float (z : Z) : result float :=
  match float_of_int z with
  | Some f => Ok f
  | None => Err OverflowError
  end.

(** [a + b]: bool is a subclass of int, an int meeting a float is converted
    first, strs and lists concatenate, anything else is a TypeError. *)
Definition py_add (a b : pyval) : result pyval :=
  match a, b with
  | PInt x, PInt y => Ok (PInt (x + y))
  | PInt x, PBool y => Ok (PInt (x + Z.b2z y))
  | PBool x, PInt y => Ok (PInt (Z.b2z x + y))
  | PBool x, PBool y => Ok (PInt (Z.b2z x + Z.b2z y))
  | PFloat x, PFloat y => Ok (PFloat (float_add x y))
  | PFloat x, PInt y =>
      rbind (int_to_float y) (fun fy => Ok (PFloat (float_add x fy)))
  | PFloat x, PBool y =>
      rbind (int_to_float (Z.b2z y)) (fun fy => Ok (PFloat (float_add x fy)))
  | PInt x, PFloat y =>
      rbind (int_to_float x) (fun fx => Ok (PFloat (float_add fx y)))
  | PBool x, PFloat y =>
      rbind (int_to_float (Z.b2z x)) (fun fx => Ok (PFloat (float_add fx y)))
  | PStr x, PStr y => Ok (PStr (x ++ y))
  | PList x, PList y => Ok (PList (x ++ y))
  | _, _ => Err TypeError
  end.

(** [str(n)] for an int. *)
Definition str_of_int (z : Z) : string :=
  NilZero.string_of_int (Z.to_int z).

Fixpoint join (sep : string) (l : list string) : string :=
  match l with
  | [] => EmptyString
  | [x] => x
  | x :: l' => x ++ sep ++ join sep l'
  end.

(** [repr(v)] *)
Fixpoint py_repr (v : pyval) : string :=
  match v with
  | PNone => "None"
  | PBool true => "True"
  | PBool false => "False"
  | PInt z => str_of_int z
  | PFloat f => float_repr f
  | PStr s => str_repr s
  | PList l => "[" ++ join ", " (map py_repr l) ++ "]"
  | PDict d =>
      "{" ++ join ", " (map (fun kv => str_repr (fst kv) ++ ": " ++ py_repr (snd kv)) d)
          ++ "}"
  end.

(** [str(v)]: a str is itself, every other value prints as its [repr]. *)
Definition py_str (v : pyval) : string :=
  match v with
  | PStr s => s
  | _ => py_repr v
  end.

(** [bool(s)] for a str. *)
Definition bool_of_str (s : string) : bool :=
  negb (String.eqb s EmptyString).

(** [c.isspace()] for a code point below 256. *)
Definition isspace (c : ascii) : bool :=
  let n := nat_of_ascii c in
  (((9 <=? n) && (n <=? 13)) || ((28 <=? n) && (n <=? 32))
   || (n =? 133) || (n =? 160))%nat.

(** [s.split()]: the maximal runs of characters that are not whitespace. *)
Fixpoint split (s : string) : list string :=
  match s with
  | EmptyString => []
  | String c s' =>
      if isspace c then split s'
      else match s' with
           | EmptyString => [String c EmptyString]
           | String c' _ =>
               if isspace c' then String c EmptyString :: split s'
               else match split s' with
                    | w :: ws => String c w :: ws
                    | [] => [String c EmptyString]
                    end
           end
  end.

(** [v.split()[0]]: only a str has [split] (AttributeError otherwise), and
    a str without a token has no element 0 (IndexError). *)
Definition split_first (v : pyval) : result string :=
  match v with
  | PStr s => match split s with
              | w :: _ => Ok w
              | [] => Err IndexError
              end
  | _ => Err AttributeError
  end.

End Values.

(* ===================================================================== *)
(** * The process and its surroundings *)
(* ===================================================================== *)

(** What the process does to the outside, in order: the requests it sends,
    the calls to the logger (level and format string) and the sleeps. *)
Inductive event : Type :=
  | EvRequest (url : string)
  | EvLog (level : string) (msg : string)
  | EvSleep (seconds : Z).

(** How a control path stands: it returned a value, it is unwinding with an
    exception, or it is still inside a loop when the fuel is spent. *)
Inductive outcome (A : Type) : Type :=
  | Returns (a : A)
  | Raises (e : exn)
  | Running.
Arguments Returns {A} a.
Arguments Raises {A} e.
Arguments Running {A}.

Section Process.
Context {RT : Runtime}.

(** [requests.request] either raises a RequestException (connection
    refused, timeout, DNS failure) or returns a response; a response is
    modelled by the document its [.json()] returns (the upstream API
    answers every endpoint with JSON). *)
Inductive reply : Type :=
  | TransportError
  | Response (json : pyval).

(** The upstream: the answer to the request number [i] of the process
    (counted from 0) when it is sent to [url]. *)
Definition network : Type := nat -> string -> reply.

(** The black-box system-stats provider: [os.getloadavg()], the first five
    fields of [psutil.virtual_memory()] (total, available, percent, used,
    free on every platform) and [psutil.cpu_percent(interval=1)]. *)
Record host_stats : Type := {
  load_avg : pyval * pyval * pyval;
  virtual_mem : pyval * pyval * pyval * pyval * pyval;
  cpu_percent : pyval
}.

Record state : Type := {
  requests_sent : nat;
  events : list event
}.

Definition M (A : Type) : Type := state -> outcome A * state.

Definition ret {A} (a : A) : M A := fun s => (Returns a, s).

Definition raise {A} (e : exn) : M A := fun s => (Raises e, s).

Definition running {A} : M A := fun s => (Running, s).

Definition bind {A B} (m : M A) (k : A -> M B) : M B :=
  fun s =>
    match m s with
    | (Returns a, s') => k a s'
    | (Raises e, s') => (Raises e, s')
    | (Running, s') => (Running, s')
    end.

(** [try: body / except <handles>: handler] *)
Definition try_except {A} (body : M A) (handles : exn -> bool) (handler : M A)
  : M A :=
  fun s =>
    match body s with
    | (Raises e, s') => if handles e then handler s' else (Raises e, s')
    | r => r
    end.

Definition lift {A} (r : result A) : M A :=
  match r with
  | Ok a => ret a
  | Err e => raise e
  end.

(** The state once an event is added to the trace. *)
Definition logged (s : state) (e : event) : state :=
  {| requests_sent := requests_sent s; events := events s ++ [e] |}.

Definition emit (e : event) : M unit :=
  fun s => (Returns tt, logged s e).

(** The state in which [collect] calls [get_immich_metrics]. *)
Definition entered (s : state) : state :=
  logged s (EvLog "info" "Requested the metrics").

Definition logger_error (msg : string) : M unit := emit (EvLog "error" msg).
Definition logger_warning (msg : string) : M unit := emit (EvLog "warning" msg).
Definition logger_info (msg : string) : M unit := emit (EvLog "info" msg).
Definition logger_debug (msg : string) : M unit := emit (EvLog "debug" msg).
Definition time_sleep (seconds : Z) : M unit := emit (EvSleep seconds).

(** [requests.request("GET", url, ...)] *)
Definition requests_request (net : network) (url : string) : M pyval :=
  fun s =>
    let s' := {| requests_sent := S (requests_sent s);
                 events := events s ++ [EvRequest url] |} in
    match net (requests_sent s) url with
    | TransportError => (Raises RequestException, s')
    | Response doc => (Returns doc, s')
    end.

(** [except requests.exceptions.RequestException] *)
Definition is_RequestException (e : exn) : bool := exn_eqb e RequestException.

(** Reading a local variable that an assignment may not have bound. *)
Definition read_local {A} (name : string) (v : option A) : M A :=
  match v with
  | Some a => ret a
  | None => raise UnboundLocalError
  end.

End Process.

Declare Scope py_scope.
Delimit Scope py_scope with py.
Notation "x <- m ;; k" := (bind m (fun x => k))
  (at level 61, m at next level, right associativity) : py_scope.
Notation "m ;;; k" := (bind m (fun _ => k))
  (at level 61, right associativity) : py_scope.

(* ===================================================================== *)
(** * The collector: [class ImmichMetricsCollector] *)
(* ===================================================================== *)

Section Collector.
Context {RT : Runtime}.
Local Open Scope py_scope.

(** The dict [main] builds from the environment. *)
Record Config : Type := {
  immich_host : string;
  immich_port : string;
  token : string;
  exporter_port : Z;
  log_level : string;
  metrics_prefix : string
}.

Record ImmichMetricsCollector : Type := {
  config : Config
}.

(** A metric as the transformers build it: a dict with the keys "name",
    "value" and "help", and with the key "labels" in some of them ([None]
    when the key is absent).  No transformer sets the key "type". *)
Record metric : Type := {
  name : string;
  value : pyval;
  help : string;
  labels : option (list (string * string));
  type : option string
}.

(** [metric.get("labels", {})] *)
Definition get_labels (m : metric) : list (string * string) :=
  match labels m with
  | Some l => l
  | None => []
  end.

(** [metric.get("type", "gauge")] *)
Definition get_type (m : metric) : string :=
  match type m with
  | Some t => t
  | None => "gauge"
  end.

Definition label_keys (m : metric) : list string := map fst (get_labels m).

(** What the world around one process is: the upstream and the host. *)
Record world : Type := {
  upstream : network;
  host : host_stats
}.

Variable w : world.
Variable self : ImmichMetricsCollector.

Definition combine_url (api_endpoint : string) : string :=
  let prefix_url := "http://" in
  let base_url := immich_host (config self) in
  let base_url_port := immich_port (config self) in
  let base_api_endpoint := "/api/server" in
  prefix_url ++ base_url ++ ":" ++ base_url_port ++ base_api_endpoint
    ++ api_endpoint.

Definition request (endpoint : string) : M pyval :=
  requests_request (upstream w) (combine_url endpoint).

(** The state after one request to an endpoint. *)
Definition requested (s : state) (endpoint : string) : state :=
  {| requests_sent := S (requests_sent s);
     events := events s ++ [EvRequest (combine_url endpoint)] |}.

(** [for x in xs: acc = body(x, acc)], for a body without effects. *)
Fixpoint for_each {A S : Type} (xs : list A) (body : A -> S -> result S) (acc : S)
  : result S :=
  match xs with
  | [] => Ok acc
  | x :: xs' => rbind (body x acc) (for_each xs' body)
  end.

(** The local variables the loop of [get_immich_users_stat] updates. *)
Record users_locals : Type := {
  photos_growth_total : pyval;
  videos_growth_total : pyval;
  usage_growth_total : pyval;
  metrics : list metric
}.

(** [user_data[x][key]] *)
Definition user_field (user_data : pyval) (x : nat) (key : string) : result pyval :=
  rbind (getindex user_data x) (fun u => getitem u key).

(** [user_data[x]["userName"].split()[0]] *)
Definition user_first_name (user_data : pyval) (x : nat) : result string :=
  rbind (user_field user_data x "userName") split_first.

(** One of the three dicts appended per user. *)
Definition user_metric (user_data : pyval) (x : nat) (suffix key : string)
  : result metric :=
  rbind (user_field user_data x key) (fun v =>
  rbind (user_first_name user_data x) (fun label =>
  rbind (user_first_name user_data x) (fun shown =>
  Ok {| name := metrics_prefix (config self) ++ suffix;
        value := v;
        labels := Some [("firstName", label)];
        help := "Number of photos by user " ++ shown ++ " ";
        type := None |}))).

(** The body of [for x in range(0, user_count)]. *)
Definition users_stat_body (user_data : pyval) (x : nat) (l : users_locals)
  : result users_locals :=
  rbind (user_field user_data x "photos") (fun p =>
  rbind (py_add (photos_growth_total l) p) (fun photos_total =>
  rbind (user_field user_data x "videos") (fun v =>
  rbind (py_add (videos_growth_total l) v) (fun videos_total =>
  rbind (user_field user_data x "usage") (fun u =>
  rbind (py_add (usage_growth_total l) u) (fun usage_total =>
  rbind (user_metric user_data x "_server_stats_photos_by_users" "photos") (fun m1 =>
  rbind (user_metric user_data x "_server_stats_videos_by_users" "videos") (fun m2 =>
  rbind (user_metric user_data x "_server_stats_usage_by_users" "usage") (fun m3 =>
  Ok {| photos_growth_total := photos_total;
        videos_growth_total := videos_total;
        usage_growth_total := usage_total;
        metrics := (metrics l ++ [m1] ++ [m2] ++ [m3])%list |}))))))))).

Definition get_immich_users_stat : M (list metric) :=
  response_user_stats <-
    try_except
      (r <- request "/statistics" ;; ret (Some r))
      is_RequestException
      (logger_error "API ERROR: can't get server statistic: %s" ;;; ret None) ;;
  user_data <- (r <- read_local "response_user_stats" response_user_stats ;;
                lift (getitem r "usageByUser")) ;;
  user_count <- (r <- read_local "response_user_stats" response_user_stats ;;
                 u <- lift (getitem r "usageByUser") ;;
                 lift (py_len u)) ;;
  l <- lift (for_each (seq 0 user_count) (users_stat_body user_data)
               {| photos_growth_total := PInt 0;
                  videos_growth_total := PInt 0;
                  usage_growth_total := PInt 0;
                  metrics := [] |}) ;;
  ret (metrics l ++
       [ {| name := metrics_prefix (config self) ++ "_server_stats_user_count";
            value := PInt (Z.of_nat user_count);
            help := "number of users on the immich server";
            labels := None; type := None |};
         {| name := metrics_prefix (config self) ++ "_server_stats_photos_growth";
            value := photos_growth_total l;
            help := "photos counter that is added or removed";
            labels := None; type := None |};
         {| name := metrics_prefix (config self) ++ "_server_stats_videos_growth";
            value := videos_growth_total l;
            help := "videos counter that is added or removed";
            labels := None; type := None |};
         {| name := metrics_prefix (config self) ++ "_server_stats_usage_growth";
            value := usage_growth_total l;
            help := "videos counter that is added or removed";
            labels := None; type := None |} ])%list.

Definition get_immich_storage : M (list metric) :=
  response_storage <-
    try_except
      (r <- request "/storage" ;; ret (Some r))
      is_RequestException
      (logger_error "Couldn't get storage info: %s" ;;; ret None) ;;
  let field key := r <- read_local "response_storage" response_storage ;;
                   lift (getitem r key) in
  v1 <- field "diskAvailableRaw" ;;
  v2 <- field "diskSizeRaw" ;;
  v3 <- field "diskUseRaw" ;;
  v4 <- field "diskUsagePercentage" ;;
  ret [ {| name := metrics_prefix (config self) ++ "_server_info_diskAvailable";
           value := v1;
           help := "Available space on disk";
           labels := None; type := None |};
        {| name := metrics_prefix (config self) ++ "_server_info_totalDiskSize";
           value := v2;
           help := "total disk size";
           labels := None; type := None |};
        {| name := metrics_prefix (config self) ++ "_server_info_diskUse";
           value := v3;
           help := "disk space in use";
           labels := None; type := None |};
        {| name := metrics_prefix (config self) ++ "_server_info_diskUsagePercentage";
           value := v4;
           help := "disk usage in percent";
           labels := None; type := None |} ].

(** The [while True] loop of [get_immich_server_version_number]: a
    RequestException is logged and the loop starts over at once; anything
    else leaves the loop. *)
Fixpoint fetch_server_version (fuel : nat) : M pyval :=
  match fuel with
  | O => running
  | S fuel' =>
      try_except
        (request "/version")
        is_RequestException
        (logger_error "Couldn't get server version" ;;; fetch_server_version fuel')
  end.

Definition get_immich_server_version_number (fuel : nat) : M (list metric) :=
  response <- fetch_server_version fuel ;;
  major <- lift (getitem response "major") ;;
  minor <- lift (getitem response "minor") ;;
  patch <- lift (getitem response "patch") ;;
  let server_version_number :=
    py_str major ++ "." ++ py_str minor ++ "." ++ py_str patch in
  ret [ {| name := metrics_prefix (config self) ++ "_server_info_version_number";
           value := PBool (bool_of_str server_version_number);
           help := "server version number";
           labels := Some [("version", server_version_number)];
           type := None |} ].

Definition get_system_stats : M (list metric) :=
  let '(load1, load5, load15) := load_avg (host w) in
  let '(vm0, vm1, vm2, vm3, vm4) := virtual_mem (host w) in
  let cpu := cpu_percent (host w) in
  let sys (suffix : string) (v : pyval) (h : string)
          (l : option (list (string * string))) :=
    {| name := metrics_prefix (config self) ++ suffix;
       value := v; help := h; labels := l; type := None |} in
  ret [ sys "_system_info_loadAverage" load1 "CPU Load average 1m"
            (Some [("period", "1m")]);
        sys "_system_info_loadAverage" load5 "CPU Load average 5m"
            (Some [("period", "5m")]);
        sys "_system_info_loadAverage" load15 "CPU Load average 15m"
            (Some [("period", "15m")]);
        sys "_system_info_memory" vm0 "Virtual Memory - Total"
            (Some [("type", "Total")]);
        sys "_system_info_memory" vm1 "Virtual Memory - Available"
            (Some [("type", "Available")]);
        sys "_system_info_memory" vm2 "Virtual Memory - Percent"
            (Some [("type", "Percent")]);
        sys "_system_info_memory" vm3 "Virtual Memory - Used"
            (Some [("type", "Used")]);
        sys "_system_info_memory" vm4 "Virtual Memory - Free"
            (Some [("type", "Free")]);
        sys "_system_info_cpu_usage" cpu
            "Representing the current system-wide CPU utilization as a percentage"
            None ].

Definition get_immich_metrics (fuel : nat) : M (list metric) :=
  let metrics := [] in
  m1 <- get_immich_server_version_number fuel ;;
  let metrics := (metrics ++ m1)%list in
  m2 <- get_immich_storage ;;
  let metrics := (metrics ++ m2)%list in
  m3 <- get_immich_users_stat ;;
  let metrics := (metrics ++ m3)%list in
  m4 <- get_system_stats ;;
  let metrics := (metrics ++ m4)%list in
  ret metrics.

(** A [GaugeMetricFamily] or [CounterMetricFamily] holding the one sample
    [add_metric] gave it. *)
Record MetricFamily : Type := {
  family_class : string;
  family_name : string;
  documentation : string;
  labelnames : list string;
  samples : list (list string * pyval)
}.

Definition to_family (m : metric) : MetricFamily :=
  let labels := get_labels m in
  {| family_class := if String.eqb (get_type m) "counter"
                     then "CounterMetricFamily" else "GaugeMetricFamily";
     family_name := name m;
     documentation := help m;
     labelnames := map fst labels;
     samples := [(map snd labels, value m)] |}.

(** The families [collect] yields, in order; each [yield] is followed by
    a debug line for the family. *)
Fixpoint yield_all (ms : list metric) : M (list MetricFamily) :=
  match ms with
  | [] => ret []
  | m :: ms' =>
      let prom_metric := to_family m in
      logger_debug (family_name prom_metric) ;;;
      rest <- yield_all ms' ;;
      ret (prom_metric :: rest)
  end.

Definition collect (fuel : nat) : M (list MetricFamily) :=
  logger_info "Requested the metrics" ;;;
  metrics <- get_immich_metrics fuel ;;
  yield_all metrics.

End Collector.

(* ===================================================================== *)
(** * The signal handler: [class SignalHandler] *)
(* ===================================================================== *)

Section Lifecycle.
Context {RT : Runtime}.
Local Open Scope py_scope.

Record SignalHandler : Type := {
  shutdown_count : Z
}.

(** [__init__] *)
Definition SignalHandler_init : SignalHandler := {| shutdown_count := 0 |}.

Definition is_shutting_down (self : SignalHandler) : bool :=
  0 <? shutdown_count self.

(** The body of [_on_signal_received]; the value returned is the handler
    object after the call.  [sys.exit(1)] raises SystemExit. *)
Definition _on_signal_received (self : SignalHandler) : M SignalHandler :=
  (if 1 <? shutdown_count self
   then logger_warning "Forcibly killing exporter" ;;; raise (SystemExit 1)
   else ret tt) ;;;
  logger_info "Exporter is shutting down" ;;;
  ret {| shutdown_count := shutdown_count self + 1 |}.

(** A call of a bound method that declares [declared] parameters besides
    [self] with [given] positional arguments: the body runs when the two
    numbers agree, and the call raises TypeError before it otherwise. *)
Definition call_method {A : Type} (declared given : nat) (body : M A) : M A :=
  if Nat.eqb declared given then body else raise TypeError.

(** A SIGINT or SIGTERM arrives: the interpreter calls the handler that
    [__init__] registered, the bound method [self._on_signal_received], as
    [handler(signum, frame)].  The method is declared with [self] alone. *)
Definition signal_arrives (self : SignalHandler) : M SignalHandler :=
  call_method 0 2 (_on_signal_received self).

(* ===================================================================== *)
(** * The readiness probe: [check_server_up] *)
(* ===================================================================== *)

(** The [if]/[elif] chain of the [except] branch. *)
Definition sleep_after_failure (counter : Z) : M unit :=
  if (0 <=? counter) && (counter <=? 60) then time_sleep 1
  else if (11 <=? counter) && (counter <=? 300) then time_sleep 15
  else if 300 <? counter then time_sleep 60
  else ret tt.

Definition ping_url (immich_host immich_port : string) : string :=
  "http://" ++ immich_host ++ ":" ++ immich_port ++ "/api/server/ping".

(** The [while True] loop; [counter] is the value of the local variable
    when the iteration starts. *)
Fixpoint check_server_up_loop (net : network) (immich_host immich_port : string)
    (fuel : nat) (counter : Z) : M unit :=
  match fuel with
  | O => running
  | S fuel' =>
      let counter := counter + 1 in
      try_except
        (requests_request net (ping_url immich_host immich_port) ;;; ret tt)
        is_RequestException
        (logger_error
           "CONNECTION ERROR. Cannot reach immich at %s:%s. Is immich up and running?" ;;;
         sleep_after_failure counter ;;;
         check_server_up_loop net immich_host immich_port fuel' counter)
  end.

Definition check_server_up (net : network) (immich_host immich_port : string)
    (fuel : nat) : M unit :=
  let counter := 0 in
  check_server_up_loop net immich_host immich_port fuel counter ;;;
  logger_info "Found immich up and running at %s:%s." ;;;
  logger_info "Attempting to connect to immich" ;;;
  time_sleep 1 ;;;
  logger_info "Exporter 1.2.1".

End Lifecycle.

(* ===================================================================== *)
(** * What the specification says, for comparison with the code *)
(* ===================================================================== *)

Section Specification.
Context {RT : Runtime}.

(** The tiered backoff schedule of the specification: attempts 1 to 60
    sleep 1 second, 61 to 300 sleep 15 seconds, later ones 60 seconds. *)
Definition tiered_backoff (attempt : Z) : Z :=
  if attempt <=? 60 then 1
  else if attempt <=? 300 then 15
  else 60.

(** The sleeps of a trace, in order. *)
Fixpoint sleeps (evs : list event) : list Z :=
  match evs with
  | [] => []
  | EvSleep n :: evs' => n :: sleeps evs'
  | _ :: evs' => sleeps evs'
  end.

(** The attempt numbers 1, 2, ..., n. *)
Definition attempts (n : nat) : list Z := map Z.of_nat (seq 1 n).

Fixpoint drop_spaces (s : string) : string :=
  match s with
  | EmptyString => EmptyString
  | String c s' => if isspace c then drop_spaces s' else s
  end.

Fixpoint take_word (s : string) : string :=
  match s with
  | EmptyString => EmptyString
  | String c s' => if isspace c then EmptyString else String c (take_word s')
  end.

(** The first whitespace-delimited token of a string: skip the leading
    whitespace, read up to the next whitespace. *)
Definition first_token (s : string) : string := take_word (drop_spaces s).

(** One entry of [usageByUser] in a valid statistics response. *)
Record UserUsage : Type := {
  userName : string;
  photos : Z;
  videos : Z;
  usage : Z
}.

(** An entry of [usageByUser] is valid when it is an object whose "photos",
    "videos" and "usage" are integers and whose "userName" is a string with
    at least one token. *)
Definition as_user (v : pyval) : option UserUsage :=
  match v with
  | PDict d =>
      match lookup "userName" d, lookup "photos" d, lookup "videos" d,
            lookup "usage" d with
      | Some (PStr n), Some (PInt p), Some (PInt v), Some (PInt u) =>
          if String.eqb (first_token n) EmptyString then None
          else Some {| userName := n; photos := p; videos := v; usage := u |}
      | _, _, _, _ => None
      end
  | _ => None
  end.

Fixpoint as_users (l : list pyval) : option (list UserUsage) :=
  match l with
  | [] => Some []
  | v :: l' =>
      match as_user v, as_users l' with
      | Some u, Some us => Some (u :: us)
      | _, _ => None
      end
  end.

(** A statistics response is valid when it is an object whose
    "usageByUser" is an array of valid entries; [Some] of the entries then. *)
Definition as_statistics (doc : pyval) : option (list UserUsage) :=
  match doc with
  | PDict d =>
      match lookup "usageByUser" d with
      | Some (PList l) => as_users l
      | _ => None
      end
  | _ => None
  end.

Definition sum_of (f : UserUsage -> Z) (us : list UserUsage) : Z :=
  fold_right Z.add 0 (map f us).

(** What a record says to the exposition sink, its help text apart: name,
    value, labels and kind. *)
Definition shown (m : metric) : string * pyval * list (string * string) * string :=
  (name m, value m, get_labels m, get_type m).

(** The three records of one user, as the specification lists them. *)
Definition user_records (prefix : string) (u : UserUsage)
  : list (string * pyval * list (string * string) * string) :=
  [ (prefix ++ "_server_stats_photos_by_users", PInt (photos u),
     [("firstName", first_token (userName u))], "gauge");
    (prefix ++ "_server_stats_videos_by_users", PInt (videos u),
     [("firstName", first_token (userName u))], "gauge");
    (prefix ++ "_server_stats_usage_by_users", PInt (usage u),
     [("firstName", first_token (userName u))], "gauge") ].

(** The four aggregate records. *)
Definition aggregate_records (prefix : string) (us : list UserUsage)
  : list (string * pyval * list (string * string) * string) :=
  [ (prefix ++ "_server_stats_user_count", PInt (Z.of_nat (List.length us)),
     [], "gauge");
    (prefix ++ "_server_stats_photos_growth", PInt (sum_of photos us), [], "gauge");
    (prefix ++ "_server_stats_videos_growth", PInt (sum_of videos us), [], "gauge");
    (prefix ++ "_server_stats_usage_growth", PInt (sum_of usage us), [], "gauge") ].

(** The three dicts the loop appends for a valid user. *)
Definition user_dicts (prefix : string) (u : UserUsage) : list metric :=
  let dict (suffix : string) (v : Z) :=
    {| name := prefix ++ suffix;
       value := PInt v;
       help := "Number of photos by user " ++ first_token (userName u) ++ " ";
       labels := Some [("firstName", first_token (userName u))];
       type := None |} in
  [ dict "_server_stats_photos_by_users" (photos u);
    dict "_server_stats_videos_by_users" (videos u);
    dict "_server_stats_usage_by_users" (usage u) ].

(** The four dicts added after the loop, for valid users. *)
Definition aggregate_dicts (prefix : string) (us : list UserUsage) : list metric :=
  [ {| name := prefix ++ "_server_stats_user_count";
       value := PInt (Z.of_nat (List.length us));
       help := "number of users on the immich server";
       labels := None; type := None |};
    {| name := prefix ++ "_server_stats_photos_growth";
       value := PInt (sum_of photos us);
       help := "photos counter that is added or removed";
       labels := None; type := None |};
    {| name := prefix ++ "_server_stats_videos_growth";
       value := PInt (sum_of videos us);
       help := "videos counter that is added or removed";
       labels := None; type := None |};
    {| name := prefix ++ "_server_stats_usage_growth";
       value := PInt (sum_of usage us);
       help := "videos counter that is added or removed";
       labels := None; type := None |} ].

(** A dict without the key [k]. *)
Definition without_key (k : string) (d : list (string * pyval))
  : list (string * pyval) :=
  filter (fun kv => negb (String.eqb k (fst kv))) d.

(** A statistics document in which an expected field is absent: there is
    no "usageByUser", or one entry of it, the entries before it being valid,
    is a valid entry from which one of its four fields was taken away. *)
Definition statistics_lacks_field (d : list (string * pyval)) : Prop :=
  lookup "usageByUser" d = None
  \/ exists before us d0 u k after,
       lookup "usageByUser" d
         = Some (PList (before ++ PDict (without_key k d0) :: after))
       /\ as_users before = Some us
       /\ as_user (PDict d0) = Some u
       /\ In k ["photos"; "videos"; "usage"; "userName"].

(** The label keys of each metric family, by the part of the name that
    follows the prefix. *)
Definition family_label_keys (suffix : string) : list string :=
  if String.eqb suffix "_server_info_version_number" then ["version"]
  else if String.eqb suffix "_server_stats_photos_by_users" then ["firstName"]
  else if String.eqb suffix "_server_stats_videos_by_users" then ["firstName"]
  else if String.eqb suffix "_server_stats_usage_by_users" then ["firstName"]
  else if String.eqb suffix "_system_info_loadAverage" then ["period"]
  else if String.eqb suffix "_system_info_memory" then ["type"]
  else [].

Definition well_keyed (prefix : string) (m : metric) : Prop :=
  exists suffix, name m = prefix ++ suffix
                 /\ label_keys m = family_label_keys suffix.

(** The values of the records of a given name. *)
Definition values_named (n : string) (ms : list metric) : list pyval :=
  map value (filter (fun m => String.eqb (name m) n) ms).

(** Two records of one name have the same label keys, in the same order. *)
Definition label_keys_consistent (ms : list metric) : Prop :=
  forall m1 m2, In m1 ms -> In m2 ms -> name m1 = name m2 ->
                label_keys m1 = label_keys m2.

(** The trace of [k] failed fetches of a URL, each followed at once by
    the error line: no sleep in between. *)
Fixpoint failed_fetches (url msg : string) (k : nat) : list event :=
  match k with
  | O => []
  | S k' => EvRequest url :: EvLog "error" msg :: failed_fetches url msg k'
  end.

End Specification.

(* ===================================================================== *)
(** * The scenarios of the specification *)
(* ===================================================================== *)

Section Scenarios.
#[local] Existing Instance integer_runtime.

Definition scenario_config : Config := {|
  immich_host := "immich";
  immich_port := "2283";
  token := "secret";
  exporter_port := 8000;
  log_level := "INFO";
  metrics_prefix := "immich"
|}.

Definition exporter : ImmichMetricsCollector := {| config := scenario_config |}.

Definition version_doc : pyval :=
  PDict [("major", PInt 1); ("minor", PInt 2); ("patch", PInt 3)].

Definition storage_doc : pyval :=
  PDict [("diskAvailableRaw", PInt 100); ("diskSizeRaw", PInt 500);
         ("diskUseRaw", PInt 400); ("diskUsagePercentage", PInt 80)].

Definition user_doc (n : string) (p v u : Z) : pyval :=
  PDict [("userName", PStr n); ("photos", PInt p); ("videos", PInt v);
         ("usage", PInt u)].

Definition statistics_doc : pyval :=
  PDict [("usageByUser",
          PList [user_doc "Ann Lee" 3 1 100; user_doc "Bo Ng" 2 0 50])].

(** A statistics response whose only user has no "videos". *)
Definition statistics_doc_without_videos : pyval :=
  PDict [("usageByUser",
          PList [PDict [("userName", PStr "Ann Lee"); ("photos", PInt 3);
                        ("usage", PInt 100)]])].

(** An upstream that answers the three endpoints with the given replies,
    every time. *)
Definition upstream_of (version storage statistics : reply) : network :=
  fun _ url =>
    if String.eqb url (combine_url exporter "/version") then version
    else if String.eqb url (combine_url exporter "/storage") then storage
    else if String.eqb url (combine_url exporter "/statistics") then statistics
    else TransportError.

Definition quiet_host : host_stats := {|
  load_avg := (PInt 0, PInt 0, PInt 0);
  virtual_mem := (PInt 8000, PInt 4000, PInt 50, PInt 3000, PInt 1000);
  cpu_percent := PInt 7
|}.

Definition world_ok : world := {|
  upstream := upstream_of (Response version_doc) (Response storage_doc)
                (Response statistics_doc);
  host := quiet_host
|}.

(** [/storage] fails with a transport error, the other two answer. *)
Definition world_storage_down : world := {|
  upstream := upstream_of (Response version_doc) TransportError
                (Response statistics_doc);
  host := quiet_host
|}.

(** [/statistics] answers with a document that lacks a field. *)
Definition world_missing_field : world := {|
  upstream := upstream_of (Response version_doc) (Response storage_doc)
                (Response statistics_doc_without_videos);
  host := quiet_host
|}.

(** [/version] answers with a document that lacks "patch". *)
Definition world_version_without_patch : world := {|
  upstream := upstream_of (Response (PDict [("major", PInt 1); ("minor", PInt 2)]))
                (Response storage_doc) (Response statistics_doc);
  host := quiet_host
|}.

(** [/storage] answers with a document that lacks "diskSizeRaw". *)
Definition world_storage_without_size : world := {|
  upstream := upstream_of (Response version_doc)
                (Response (PDict [("diskAvailableRaw", PInt 100);
                                  ("diskUseRaw", PInt 400);
                                  ("diskUsagePercentage", PInt 80)]))
                (Response statistics_doc);
  host := quiet_host
|}.

(** An upstream that answers from the fourth request on. *)
Definition world_booting : world := {|
  upstream := fun i _ => if (i <? 3)%nat then TransportError
                         else Response version_doc;
  host := quiet_host
|}.

(** An upstream that never answers. *)
Definition world_down : world := {|
  upstream := fun _ _ => TransportError;
  host := quiet_host
|}.

(** An upstream that is down for the first [k] requests and answers after. *)
Definition up_after (k : nat) (doc : pyval) : network :=
  fun i _ => if (i <? k)%nat then TransportError else Response doc.

Definition start : state := {| requests_sent := 0; events := [] |}.

End Scenarios.

(* ===================================================================== *)
(** * Start-up: [get_config_value], [check_immich_api_key], [main] *)
(* ===================================================================== *)

Section Startup.
Context {RT : Runtime}.
Local Open Scope py_scope.

(** [os.environ]: the value of a variable, [None] when it is not set. *)
Definition environ : Type := string -> option string.

(** What [open(path, "r")] followed by [read()] does: it returns the text
    of the file, or raises IOError (the file cannot be opened or read), or
    raises UnicodeDecodeError (its bytes are not text in the encoding).
    The path comes from the environment and so holds no null character. *)
Inductive file_read : Type :=
  | ReadsText (contents : string)
  | RaisesIOError
  | RaisesUnicodeDecodeError.

Definition files : Type := string -> file_read.

(** [os.environ.get(key, default)] *)
Definition environ_get (env : environ) (key default : string) : string :=
  match env key with
  | Some v => v
  | None => default
  end.

(** [s.rstrip()] *)
Fixpoint rstrip (s : string) : string :=
  match s with
  | EmptyString => EmptyString
  | String c s' =>
      match rstrip s' with
      | EmptyString => if isspace c then EmptyString else String c EmptyString
      | r => String c r
      end
  end.

(** [s.strip()]: without the whitespace it starts and ends with. *)
Definition strip (s : string) : string := rstrip (drop_spaces s).

(** [except IOError] catches the IOError and logs it; UnicodeDecodeError
    is a ValueError and leaves the function. *)
Definition get_config_value (env : environ) (fs : files) (key default : string)
  : M string :=
  let input_path := env ("FILE__" ++ key) in
  match input_path with
  | Some path =>
      match fs path with
      | ReadsText contents => ret (strip contents)
      | RaisesIOError =>
          logger_error "Unable to read value for %s from %s: %s" ;;;
          ret (environ_get env key default)
      | RaisesUnicodeDecodeError => raise UnicodeDecodeError
      end
  | None => ret (environ_get env key default)
  end.

Definition api_url (immich_host immich_port : string) : string :=
  "http://" ++ immich_host ++ ":" ++ immich_port ++ "/api/server/".

(** The [while True] loop of [check_immich_api_key]: the [try] either
    falls through to "Success." and [break], or logs, sleeps three seconds
    and starts over.  The key only travels in a header of the request. *)
Fixpoint check_immich_api_key (net : network)
    (immich_host immich_port immich_api_key : string) (fuel : nat) : M unit :=
  match fuel with
  | O => running
  | S fuel' =>
      answered <-
        try_except
          (requests_request net (api_url immich_host immich_port) ;;; ret true)
          is_RequestException
          (logger_error "CONNECTION ERROR. Possible API key error" ;;;
           logger_error "{e}" ;;;
           time_sleep 3 ;;;
           ret false) ;;
      if answered : bool
      then logger_info "Success."
      else check_immich_api_key net immich_host immich_port immich_api_key fuel'
  end.

(** The level names [logger.setLevel] accepts; any other string is a
    ValueError. *)
Definition level_names : list string :=
  ["CRITICAL"; "FATAL"; "ERROR"; "WARN"; "WARNING"; "INFO"; "DEBUG"; "NOTSET"].

Definition known_level (l : string) : bool :=
  existsb (String.eqb l) level_names.

(** [main] once the config is loaded and the level is set: the signal
    handler, the three checks, the two probes. *)
Definition main_checks (net : network) (config : Config) (fuel : nat) : M unit :=
  let signal_handler := SignalHandler_init in
  (if String.eqb (immich_host config) EmptyString
   then logger_error "No host specified, please set IMMICH_HOST environment variable" ;;;
        raise (SystemExit 1)
   else ret tt) ;;;
  (if String.eqb (immich_port config) EmptyString
   then logger_error "No host specified, please set IMMICH_PORT environment variable" ;;;
        raise (SystemExit 1)
   else ret tt) ;;;
  (if String.eqb (token config) EmptyString
   then logger_error "No token specified, please set IMMICH_API_TOKEN environment variable" ;;;
        raise (SystemExit 1)
   else ret tt) ;;;
  logger_info "Exporter is starting up" ;;;
  check_server_up net (immich_host config) (immich_port config) fuel ;;;
  check_immich_api_key net (immich_host config) (immich_port config) (token config) fuel.

(** [int(s)] and [logger.setLevel(l)], which raise ValueError. *)
Definition to_int (int_of_str : string -> option Z) (s : string) : M Z :=
  match int_of_str s with
  | Some n => ret n
  | None => raise ValueError
  end.

Definition set_level (l : string) : M unit :=
  if known_level l then ret tt else raise ValueError.

(** [main], from its first line to the return of [check_immich_api_key]:
    the six entries of the config dict in the order they are written, the
    level, the checks and the probes.  [int_of_str] is [int(...)] on a str,
    [None] when it raises ValueError.  Registering the collector and
    starting the HTTP server, which follow, are not part of the model. *)
Definition main (env : environ) (fs : files) (net : network)
    (int_of_str : string -> option Z) (fuel : nat) : M unit :=
  h <- get_config_value env fs "IMMICH_HOST" EmptyString ;;
  p <- get_config_value env fs "IMMICH_PORT" EmptyString ;;
  t <- get_config_value env fs "IMMICH_API_TOKEN" EmptyString ;;
  e <- get_config_value env fs "EXPORTER_PORT" "8000" ;;
  port <- to_int int_of_str e ;;
  l <- get_config_value env fs "EXPORTER_LOG_LEVEL" "INFO" ;;
  m <- get_config_value env fs "METRICS_PREFIX" "immich" ;;
  let config := {| immich_host := h; immich_port := p; token := t;
                   exporter_port := port; log_level := l;
                   metrics_prefix := m |} in
  set_level (log_level config) ;;;
  main_checks net config fuel.

(** The loop that ends [main],
    [while not signal_handler.is_shutting_down(): time.sleep(1)].
    [arrivals i] tells whether a signal arrives during the sleep of turn
    [i]; the handler then runs in the main thread, inside the sleep. *)
Fixpoint idle_loop (arrivals : nat -> bool) (turn fuel : nat)
    (signal_handler : SignalHandler) {struct fuel} : M unit :=
  match fuel with
  | O => running
  | S fuel' =>
      if is_shutting_down signal_handler then ret tt
      else
        time_sleep 1 ;;;
        after <- (if arrivals turn then signal_arrives signal_handler
                  else ret signal_handler) ;;
        idle_loop arrivals (S turn) fuel' after
  end.

(** The last two statements of [main]. *)
Definition main_idle (arrivals : nat -> bool) (fuel : nat)
    (signal_handler : SignalHandler) : M unit :=
  idle_loop arrivals 0 fuel signal_handler ;;;
  logger_info "Exporter has shutdown".

End Startup.

(* ===================================================================== *)
(** * Descriptions used by the further facts *)
(* ===================================================================== *)

Section Descriptions.
Context {RT : Runtime}.

Fixpoint all_space (s : string) : bool :=
  match s with
  | EmptyString => true
  | String c s' => isspace c && all_space s'
  end.

Fixpoint last_char (s : string) : option ascii :=
  match s with
  | EmptyString => None
  | String c EmptyString => Some c
  | String _ s' => last_char s'
  end.

(** A string that neither starts nor ends with whitespace. *)
Definition trimmed (s : string) : Prop :=
  match s with
  | EmptyString => True
  | String c _ => isspace c = false /\ exists d, last_char s = Some d /\ isspace d = false
  end.

Fixpoint has_space (s : string) : bool :=
  match s with
  | EmptyString => false
  | String c s' => isspace c || has_space s'
  end.

Definition total (l : list Z) : Z := fold_right Z.add 0 l.

(** The seconds [check_server_up] has slept when the first [k] pings
    failed and the next one was answered, in closed form. *)
Definition time_waiting (k : Z) : Z :=
  if k <=? 60 then k + 1
  else if k <=? 300 then 60 + 15 * (k - 60) + 1
  else 60 + 3600 + 60 * (k - 300) + 1.

(** The trace of [k] failed attempts of [check_immich_api_key]. *)
Fixpoint failed_key_checks (url : string) (k : nat) : list event :=
  match k with
  | O => []
  | S k' =>
      EvRequest url :: EvLog "error" "CONNECTION ERROR. Possible API key error"
        :: EvLog "error" "{e}" :: EvSleep 3 :: failed_key_checks url k'
  end.

(** The value [get_config_value] returns; [None] when it raises
    UnicodeDecodeError instead. *)
Definition config_value (env : environ) (fs : files) (key default : string)
  : option string :=
  match env ("FILE__" ++ key) with
  | Some path =>
      match fs path with
      | ReadsText contents => Some (strip contents)
      | RaisesIOError => Some (environ_get env key default)
      | RaisesUnicodeDecodeError => None
      end
  | None => Some (environ_get env key default)
  end.

(** The line [get_config_value] logs: one when the file cannot be opened
    or read, none otherwise. *)
Definition config_log (env : environ) (fs : files) (key : string) : list event :=
  match env ("FILE__" ++ key) with
  | Some path =>
      match fs path with
      | RaisesIOError =>
          [EvLog "error" "Unable to read value for %s from %s: %s"]
      | _ => []
      end
  | None => []
  end.

(** The lines logged while the six entries of the config dict are read. *)
Definition config_logs (env : environ) (fs : files) : list event :=
  (config_log env fs "IMMICH_HOST" ++ config_log env fs "IMMICH_PORT"
   ++ config_log env fs "IMMICH_API_TOKEN" ++ config_log env fs "EXPORTER_PORT"
   ++ config_log env fs "EXPORTER_LOG_LEVEL"
   ++ config_log env fs "METRICS_PREFIX")%list.

(** A state with more events in its trace. *)
Definition appended (s : state) (evs : list event) : state :=
  {| requests_sent := requests_sent s; events := events s ++ evs |}.

(** A series: the name of a record with its labels. *)
Definition series (m : metric) : string * list (string * string) :=
  (name m, get_labels m).

(** A label value that is a token: not empty and without whitespace. *)
Definition token_labels (m : metric) : Prop :=
  forall k v, In (k, v) (get_labels m) -> v <> EmptyString /\ has_space v = false.

(** The series of one cycle, each given by the part of its name that
    follows the prefix and by its labels: the version, the four of the
    storage, three per user, the four aggregates, the nine of the host. *)
Definition version_series (version : string)
  : list (string * list (string * string)) :=
  [("_server_info_version_number", [("version", version)])].

Definition storage_series : list (string * list (string * string)) :=
  [ ("_server_info_diskAvailable", []); ("_server_info_totalDiskSize", []);
    ("_server_info_diskUse", []); ("_server_info_diskUsagePercentage", []) ].

Definition user_series (first_name : string)
  : list (string * list (string * string)) :=
  [ ("_server_stats_photos_by_users", [("firstName", first_name)]);
    ("_server_stats_videos_by_users", [("firstName", first_name)]);
    ("_server_stats_usage_by_users", [("firstName", first_name)]) ].

Definition aggregate_series : list (string * list (string * string)) :=
  [ ("_server_stats_user_count", []); ("_server_stats_photos_growth", []);
    ("_server_stats_videos_growth", []); ("_server_stats_usage_growth", []) ].

Definition system_series : list (string * list (string * string)) :=
  [ ("_system_info_loadAverage", [("period", "1m")]);
    ("_system_info_loadAverage", [("period", "5m")]);
    ("_system_info_loadAverage", [("period", "15m")]);
    ("_system_info_memory", [("type", "Total")]);
    ("_system_info_memory", [("type", "Available")]);
    ("_system_info_memory", [("type", "Percent")]);
    ("_system_info_memory", [("type", "Used")]);
    ("_system_info_memory", [("type", "Free")]);
    ("_system_info_cpu_usage", []) ].

Definition cycle_series (version : string) (first_names : list string)
  : list (string * list (string * string)) :=
  (version_series version ++ storage_series
   ++ flat_map user_series first_names ++ aggregate_series
   ++ system_series)%list.

Definition with_prefix (prefix : string) (x : string * list (string * string))
  : string * list (string * string) :=
  (prefix ++ fst x, snd x).

Definition first_names (us : list UserUsage) : list string :=
  map (fun u => first_token (userName u)) us.

(** The events after the ones already in a state. *)
Definition since (before after : state) : list event :=
  skipn (List.length (events before)) (events after).

End Descriptions.

(* ===================================================================== *)
(** * Further scenarios *)
(* ===================================================================== *)

Section FurtherScenarios.
#[local] Existing Instance integer_runtime.

Definition newline : string := String (ascii_of_nat 10) EmptyString.

(** Host and port in the environment, the token in a secret file that
    ends with a newline; a token is in the environment as well. *)
Definition env_with_secret : environ :=
  fun k =>
    if String.eqb k "IMMICH_HOST" then Some "immich"
    else if String.eqb k "IMMICH_PORT" then Some "2283"
    else if String.eqb k "FILE__IMMICH_API_TOKEN" then Some "/run/secrets/token"
    else if String.eqb k "IMMICH_API_TOKEN" then Some "from-env"
    else None.

Definition fs_with_secret : files :=
  fun p => if String.eqb p "/run/secrets/token" then ReadsText ("secret" ++ newline)
           else RaisesIOError.

(** No file at all: the secret cannot be read. *)
Definition fs_empty : files := fun _ => RaisesIOError.

(** The secret file holds bytes that are not text. *)
Definition fs_undecodable : files := fun _ => RaisesUnicodeDecodeError.

(** A signal arrives during the third sleep of the idle loop. *)
Definition signal_in_third_sleep : nat -> bool := fun i => Nat.eqb i 2.

(** An environment without [IMMICH_HOST]. *)
Definition env_without_host : environ :=
  fun k =>
    if String.eqb k "IMMICH_PORT" then Some "2283"
    else if String.eqb k "IMMICH_API_TOKEN" then Some "from-env"
    else None.


Definition digit_value (c : ascii) : option Z :=
  let n := nat_of_ascii c in
  if ((48 <=? n) && (n <=? 57))%nat then Some (Z.of_nat (n - 48)) else None.

(** The digits of a numeral, single underscores allowed between them:
    the value read and the number of digits, [None] at a character that
    is neither, at two underscores in a row or at an underscore that ends
    the numeral. *)
Fixpoint read_digits (s : string) (value : Z) (digits : nat)
    (after_underscore : bool) : option (Z * nat) :=
  match s with
  | EmptyString => if after_underscore then None else Some (value, digits)
  | String c s' =>
      if Ascii.eqb c "_"%char
      then if after_underscore then None else read_digits s' value digits true
      else match digit_value c with
           | Some d => read_digits s' (10 * value + d) (S digits) false
           | None => None
           end
  end.

(** [int(s)] on a str, in base 10: whitespace around the numeral is
    dropped, a sign may come first, the digits follow; [None] is
    ValueError.  [max_str_digits] is the bound of the interpreter on the
    number of digits ([sys.get_int_max_str_digits()], 4300 unless it is
    configured), [None] for an interpreter that has none. *)
Definition python_int (max_str_digits : option nat) (s : string) : option Z :=
  let numeral := strip s in
  let '(negative, body) :=
    match numeral with
    | String c rest =>
        if Ascii.eqb c "-"%char then (true, rest)
        else if Ascii.eqb c "+"%char then (false, rest)
        else (false, numeral)
    | EmptyString => (false, numeral)
    end in
  match body with
  | EmptyString => None
  | String c _ =>
      if Ascii.eqb c "_"%char then None
      else match read_digits body 0 0 false with
           | Some (value, digits) =>
               let too_long := match max_str_digits with
                               | Some bound => (bound <? digits)%nat
                               | None => false
                               end in
               if too_long then None
               else Some (if negative : bool then - value else value)
           | None => None
           end
  end.

(** The answer of an upstream that rejects the key. *)
Definition unauthorized_doc : pyval :=
  PDict [("message", PStr "Invalid API key"); ("statusCode", PInt 401)].

Definition network_down : network := fun _ _ => TransportError.

(** [/statistics] fails with a transport error, the other two answer. *)
Definition world_statistics_down : world := {|
  upstream := upstream_of (Response version_doc) (Response storage_doc)
                TransportError;
  host := quiet_host
|}.

(** The second user has a name of two spaces. *)
Definition world_blank_name : world := {|
  upstream := upstream_of (Response version_doc) (Response storage_doc)
                (Response (PDict [("usageByUser",
                                   PList [user_doc "Ann Lee" 3 1 100;
                                          user_doc "  " 2 0 50])]));
  host := quiet_host
|}.

(** [usageByUser] is an empty object. *)
Definition world_no_users : world := {|
  upstream := upstream_of (Response version_doc) (Response storage_doc)
                (Response (PDict [("usageByUser", PDict [])]));
  host := quiet_host
|}.

(** Two users with the same first name. *)
Definition world_namesakes : world := {|
  upstream := upstream_of (Response version_doc) (Response storage_doc)
                (Response (PDict [("usageByUser",
                                   PList [user_doc "Ann Lee" 3 1 100;
                                          user_doc "Ann Ng" 2 0 50])]));
  host := quiet_host
|}.

End FurtherScenarios.

(* ===================================================================== *)
(** * Strings *)
(* ===================================================================== *)

Lemma append_cancel_l (p a b : string) : p ++ a = p ++ b -> a = b.
Proof.
  induction p as [|c p IH]; simpl; intros H.
  - exact H.
  - inversion H; subst. now apply IH.
Qed.

Lemma eqb_append_l (p a b : string) :
  String.eqb (p ++ a) (p ++ b) = String.eqb a b.
Proof.
  destruct (String.eqb_spec a b) as [->|Hne].
  - apply String.eqb_refl.
  - apply String.eqb_neq. intros H. apply Hne. eapply append_cancel_l; eauto.
Qed.

Section SplitFacts.
Context {RT : Runtime}.

Lemma drop_spaces_word (c : ascii) (s : string) :
  isspace c = false -> drop_spaces (String c s) = String c s.
Proof. intros H. simpl. now rewrite H. Qed.

(** The first element of [s.split()] is the first token of [s], and there
    is one exactly when the first token is not empty. *)
Lemma split_first_token (s : string) :
  match split s with
  | [] => first_token s = EmptyString
  | w :: _ => w = first_token s /\ w <> EmptyString
  end.
Proof.
  induction s as [|c s IH].
  - reflexivity.
  - unfold first_token in *. cbn [split drop_spaces].
    destruct (isspace c) eqn:Hc.
    + exact IH.
    + cbn [take_word]. rewrite Hc.
      destruct s as [|c' s'].
      * split; [reflexivity | discriminate].
      * destruct (isspace c') eqn:Hc'.
        -- cbn [take_word]. rewrite Hc'. split; [reflexivity | discriminate].
        -- rewrite (drop_spaces_word c' s' Hc') in IH.
           destruct (split (String c' s')) as [|w ws].
           ++ rewrite IH. split; [reflexivity | discriminate].
           ++ destruct IH as [-> _]. split; [reflexivity | discriminate].
Qed.

Lemma split_first_str (s : string) :
  first_token s <> EmptyString -> split_first (PStr s) = Ok (first_token s).
Proof.
  intros Hne. unfold split_first.
  pose proof (split_first_token s) as H.
  destruct (split s) as [|w ws].
  - contradiction.
  - now destruct H as [-> _].
Qed.

End SplitFacts.

(* ===================================================================== *)
(** * Running computations *)
(* ===================================================================== *)

Section MonadFacts.
Context {RT : Runtime}.
Local Open Scope py_scope.

Lemma rbind_ok {A B} (r : result A) (k : A -> result B) (b : B) :
  rbind r k = Ok b -> exists a, r = Ok a /\ k a = Ok b.
Proof. destruct r; simpl; intros H; [eauto | discriminate]. Qed.

Lemma bind_returns {A B} (m : M A) (k : A -> M B) s b s' :
  bind m k s = (Returns b, s') ->
  exists a s1, m s = (Returns a, s1) /\ k a s1 = (Returns b, s').
Proof.
  unfold bind. destruct (m s) as [[a|e|] s1]; intros H; try discriminate; eauto.
Qed.

Lemma bind_step {A B} (m : M A) (k : A -> M B) s a s1 :
  m s = (Returns a, s1) -> bind m k s = k a s1.
Proof. unfold bind. now intros ->. Qed.

Lemma bind_raises {A B} (m : M A) (k : A -> M B) s e s1 :
  m s = (Raises e, s1) -> bind m k s = (Raises e, s1).
Proof. unfold bind. now intros ->. Qed.

Lemma bind_running {A B} (m : M A) (k : A -> M B) s s1 :
  m s = (Running, s1) -> bind m k s = (Running, s1).
Proof. unfold bind. now intros ->. Qed.

Lemma lift_returns {A} (r : result A) s a s' :
  lift r s = (Returns a, s') -> r = Ok a /\ s' = s.
Proof.
  destruct r; simpl; unfold ret, raise; intros H; inversion H; auto.
Qed.

Lemma sleeps_app (l1 l2 : list event) :
  sleeps (l1 ++ l2) = (sleeps l1 ++ sleeps l2)%list.
Proof.
  induction l1 as [|[u|lv msg|n] l1 IH]; simpl; auto. now rewrite IH.
Qed.

Lemma appended_nil (s : state) : appended s [] = s.
Proof. destruct s. unfold appended. cbn. now rewrite app_nil_r. Qed.

Lemma appended_app (s : state) (a b : list event) :
  appended (appended s a) b = appended s (a ++ b).
Proof. unfold appended. cbn. now rewrite app_assoc. Qed.

End MonadFacts.

(* ===================================================================== *)
(** * The signal handler *)
(* ===================================================================== *)

Section LifecycleFacts.
Context {RT : Runtime}.
Local Open Scope py_scope.

(** The body of the handler, were it run: the guard is [> 1], so the body
    returns while the count is 0 or 1 and exits once it is above 1. *)
Lemma on_signal_received_body (self : SignalHandler) (s : state) :
  (shutdown_count self <= 1 ->
   _on_signal_received self s =
     (Returns {| shutdown_count := shutdown_count self + 1 |},
      logged s (EvLog "info" "Exporter is shutting down")))
  /\ (1 < shutdown_count self ->
      _on_signal_received self s =
        (Raises (SystemExit 1),
         logged s (EvLog "warning" "Forcibly killing exporter"))).
Proof.
  split; intros H; unfold _on_signal_received, bind;
    destruct (Z.ltb_spec 1 (shutdown_count self)); (reflexivity || lia).
Qed.

(** While no signal arrives the idle loop sleeps, one second a turn. *)
Lemma idle_loop_quiet (arrivals : nat -> bool) (n : nat) :
  forall (turn fuel : nat) (s : state),
    (forall i, (turn <= i < turn + n)%nat -> arrivals i = false) ->
    idle_loop arrivals turn (n + fuel) SignalHandler_init s
      = idle_loop arrivals (turn + n) fuel SignalHandler_init
          (appended s (repeat (EvSleep 1) n)).
Proof.
  induction n as [|n IH]; intros turn fuel s Hq.
  - cbn [repeat Nat.add]. now rewrite appended_nil, Nat.add_0_r.
  - cbn [Nat.add idle_loop]. change (is_shutting_down SignalHandler_init) with false.
    cbv iota. unfold bind at 1. cbn [time_sleep emit].
    rewrite (Hq turn) by lia. unfold bind at 1, ret at 1.
    rewrite IH by (intros i Hi; apply Hq; lia).
    change (logged s (EvSleep 1)) with (appended s [EvSleep 1]).
    rewrite appended_app. cbn [repeat app]. now rewrite Nat.add_succ_r.
Qed.

(** The turn in which a signal arrives ends the loop with TypeError. *)
Lemma idle_loop_signal (arrivals : nat -> bool) (turn fuel : nat) (s : state) :
  arrivals turn = true ->
  idle_loop arrivals turn (S fuel) SignalHandler_init s
    = (Raises TypeError, appended s [EvSleep 1]).
Proof.
  intros Ha. cbn [idle_loop]. change (is_shutting_down SignalHandler_init) with false.
  cbv iota. unfold bind at 1. cbn [time_sleep emit]. rewrite Ha. reflexivity.
Qed.

(** C2, as the code has it.  The handler is registered as the bound method
    [self._on_signal_received], which takes no argument, and a signal
    calls it with two: whatever the count, the call raises TypeError, the
    count does not change and nothing is logged.  So the first signal that
    arrives while [main] idles ends [main] with this TypeError after the
    sleeps of the turns so far: the count is never 1, and no signal, the
    second no more than the first, reaches [sys.exit(1)]. *)
Theorem signal_raises_type_error (arrivals : nat -> bool) (t fuel : nat)
    (self : SignalHandler) (s : state) :
  (forall i, (i < t)%nat -> arrivals i = false) ->
  arrivals t = true ->
  (t < fuel)%nat ->
  signal_arrives self s = (Raises TypeError, s)
  /\ main_idle arrivals fuel SignalHandler_init s
     = (Raises TypeError, appended s (repeat (EvSleep 1) (S t))).
Proof.
  intros Hq Ha Hf. split; [reflexivity|].
  unfold main_idle. apply bind_raises.
  replace fuel with (t + S (fuel - S t))%nat by lia.
  rewrite idle_loop_quiet by (intros i Hi; apply Hq; lia).
  cbn [Nat.add]. rewrite idle_loop_signal by exact Ha.
  rewrite appended_app. f_equal. f_equal.
  change [EvSleep 1] with (repeat (EvSleep 1) 1).
  rewrite <- repeat_app. f_equal. lia.
Qed.

(* ===================================================================== *)
(** * The readiness probe *)
(* ===================================================================== *)

Lemma sleep_after_failure_tier (counter : Z) (s : state) :
  1 <= counter ->
  sleep_after_failure counter s
    = (Returns tt, logged s (EvSleep (tiered_backoff counter))).
Proof.
  intros H. unfold sleep_after_failure, tiered_backoff, time_sleep, emit, logged.
  destruct (Z.leb_spec 0 counter); [|lia].
  destruct (Z.leb_spec counter 60); simpl; [reflexivity|].
  destruct (Z.leb_spec 11 counter); [|lia].
  destruct (Z.leb_spec counter 300); simpl; [reflexivity|].
  destruct (Z.ltb_spec 300 counter); [reflexivity | lia].
Qed.

Lemma check_server_up_loop_sleeps (net : network) (host port : string) (k : nat) :
  forall (fuel : nat) (counter : Z) (s : state) (doc : pyval),
    0 <= counter ->
    (forall i, (i < k)%nat ->
               net (requests_sent s + i)%nat (ping_url host port) = TransportError) ->
    net (requests_sent s + k)%nat (ping_url host port) = Response doc ->
    (k < fuel)%nat ->
    exists s',
      check_server_up_loop net host port fuel counter s = (Returns tt, s')
      /\ sleeps (events s')
         = (sleeps (events s)
            ++ map tiered_backoff (map (fun j => counter + Z.of_nat j) (seq 1 k)))%list.
Proof.
  induction k as [|k IH]; intros fuel counter s doc Hc Hfail Hok Hfuel.
  - destruct fuel as [|fuel]; [lia|].
    rewrite Nat.add_0_r in Hok.
    eexists. split.
    + cbn [check_server_up_loop]. unfold try_except, bind, requests_request.
      rewrite Hok. reflexivity.
    + cbn [events seq map]. rewrite sleeps_app. reflexivity.
  - destruct fuel as [|fuel]; [lia|].
    set (s2 := logged (logged (logged s (EvRequest (ping_url host port)))
                 (EvLog "error"
                    "CONNECTION ERROR. Cannot reach immich at %s:%s. Is immich up and running?"))
                 (EvSleep (tiered_backoff (counter + 1)))).
    destruct (IH fuel (counter + 1)
                {| requests_sent := S (requests_sent s); events := events s2 |} doc)
      as (s' & Hrun & Hsl).
    + lia.
    + intros i Hi. cbn [requests_sent].
      replace (S (requests_sent s) + i)%nat with (requests_sent s + S i)%nat by lia.
      apply Hfail. lia.
    + cbn [requests_sent].
      replace (S (requests_sent s) + k)%nat with (requests_sent s + S k)%nat by lia.
      exact Hok.
    + lia.
    + exists s'. split.
      * cbn [check_server_up_loop]. unfold try_except at 1.
        unfold bind at 1, requests_request.
        specialize (Hfail 0%nat ltac:(lia)). rewrite Nat.add_0_r in Hfail.
        rewrite Hfail. cbn [is_RequestException exn_eqb].
        unfold bind at 1, logger_error, emit.
        unfold bind at 1. rewrite sleep_after_failure_tier by lia.
        exact Hrun.
      * rewrite Hsl. subst s2. cbn [events logged].
        rewrite !sleeps_app. cbn [sleeps]. rewrite !app_nil_r.
        rewrite <- app_assoc. f_equal.
        cbn [seq map app]. replace (counter + Z.of_nat 1) with (counter + 1) by lia.
        f_equal. rewrite <- (seq_shift k 1), !map_map.
        apply map_ext. intros j. f_equal. lia.
Qed.

(** C3.  When the first [k] pings fail and the next one is answered,
    [check_server_up] returns, and the sleeps it performed are the tier of
    attempt 1, the tier of attempt 2, ..., the tier of attempt [k], in this
    order, followed by the one-second pause before the banner: after the
    failed attempt [n] the probe sleeps 1 second for [n] up to 60, 15 seconds
    for [n] from 61 to 300, and 60 seconds beyond. *)
Theorem check_server_up_backoff (net : network) (host port : string)
    (k fuel : nat) (s : state) (doc : pyval) :
  (forall i, (i < k)%nat ->
             net (requests_sent s + i)%nat (ping_url host port) = TransportError) ->
  net (requests_sent s + k)%nat (ping_url host port) = Response doc ->
  (k < fuel)%nat ->
  exists s',
    check_server_up net host port fuel s = (Returns tt, s')
    /\ sleeps (events s')
       = (sleeps (events s) ++ map tiered_backoff (attempts k) ++ [1])%list.
Proof.
  intros Hfail Hok Hfuel.
  destruct (check_server_up_loop_sleeps net host port k fuel 0 s doc
              ltac:(lia) Hfail Hok Hfuel) as (s1 & Hrun & Hsl).
  eexists. split.
  - unfold check_server_up. unfold bind at 1. rewrite Hrun. reflexivity.
  - cbn [events logged]. rewrite !sleeps_app, Hsl. cbn [sleeps].
    rewrite !app_nil_r, <- app_assoc. reflexivity.
Qed.

End LifecycleFacts.

(* ===================================================================== *)
(** * The version transformer *)
(* ===================================================================== *)

Section VersionFacts.
Context {RT : Runtime}.
Variable w : world.
Variable self : ImmichMetricsCollector.
Local Open Scope py_scope.

Lemma sleeps_failed_fetches (url msg : string) (k : nat) :
  sleeps (failed_fetches url msg k) = [].
Proof. induction k; simpl; auto. Qed.

Lemma failed_fetches_snoc (url msg : string) (k : nat) :
  (EvRequest url :: EvLog "error" msg :: failed_fetches url msg k
   = failed_fetches url msg k ++ [EvRequest url; EvLog "error" msg])%list.
Proof. induction k; simpl; [reflexivity | now rewrite <- IHk]. Qed.

(** Fetches that fail are repeated at once, until one is answered. *)
Lemma fetch_server_version_retries (k : nat) :
  forall (fuel : nat) (s : state) (doc : pyval),
    (forall i, (i < k)%nat ->
               upstream w (requests_sent s + i)%nat (combine_url self "/version") = TransportError) ->
    upstream w (requests_sent s + k)%nat (combine_url self "/version") = Response doc ->
    (k < fuel)%nat ->
    fetch_server_version w self fuel s
      = (Returns doc,
         {| requests_sent := requests_sent s + k + 1;
            events := events s
                      ++ failed_fetches (combine_url self "/version") "Couldn't get server version" k
                      ++ [EvRequest (combine_url self "/version")] |}).
Proof.
  induction k as [|k IH]; intros fuel s doc Hfail Hok Hfuel;
    (destruct fuel as [|fuel]; [lia|]);
    cbn [fetch_server_version]; unfold try_except, request, requests_request.
  - rewrite Nat.add_0_r in Hok. rewrite Hok. cbn [failed_fetches app].
    do 3 f_equal. lia.
  - pose proof (Hfail 0%nat ltac:(lia)) as H0. rewrite Nat.add_0_r in H0.
    rewrite H0. cbn [is_RequestException exn_eqb].
    unfold bind, logger_error, emit, logged. cbn [requests_sent events].
    rewrite (IH fuel _ doc).
    + cbn [requests_sent events failed_fetches]. f_equal. f_equal; [lia|].
      rewrite <- !app_assoc. reflexivity.
    + intros i Hi. cbn [requests_sent].
      replace (S (requests_sent s) + i)%nat with (requests_sent s + S i)%nat by lia.
      apply Hfail. lia.
    + cbn [requests_sent].
      replace (S (requests_sent s) + k)%nat with (requests_sent s + S k)%nat by lia.
      exact Hok.
    + lia.
Qed.

(** When no fetch is ever answered the loop uses up any fuel. *)
Lemma fetch_server_version_spins (fuel : nat) :
  forall (s : state),
    (forall i, upstream w (requests_sent s + i)%nat (combine_url self "/version") = TransportError) ->
    fetch_server_version w self fuel s
      = (Running,
         {| requests_sent := requests_sent s + fuel;
            events := events s
                      ++ failed_fetches (combine_url self "/version") "Couldn't get server version" fuel |}).
Proof.
  induction fuel as [|fuel IH]; intros s Hfail.
  - cbn [fetch_server_version failed_fetches]. unfold running.
    rewrite Nat.add_0_r, app_nil_r. now destruct s.
  - cbn [fetch_server_version]. unfold try_except, request, requests_request.
    pose proof (Hfail 0%nat) as H0. rewrite Nat.add_0_r in H0.
    rewrite H0. cbn [is_RequestException exn_eqb].
    unfold bind, logger_error, emit, logged. cbn [requests_sent events].
    rewrite IH.
    + cbn [requests_sent events failed_fetches]. f_equal. f_equal; [lia|].
      rewrite <- !app_assoc. reflexivity.
    + intros i. cbn [requests_sent].
      replace (S (requests_sent s) + i)%nat with (requests_sent s + S i)%nat by lia.
      apply Hfail.
Qed.

(** C7.  Whenever the fetch obtained a version document that has the
    three fields, the transformer returns exactly one record: its name is
    the prefix followed by [_server_info_version_number], its value is
    [True], and its only label, [version], is the [str] of the three fields
    joined by dots. *)
Theorem version_record (fuel : nat) (s s' : state) (doc major minor patch : pyval) :
  fetch_server_version w self fuel s = (Returns doc, s') ->
  getitem doc "major" = Ok major ->
  getitem doc "minor" = Ok minor ->
  getitem doc "patch" = Ok patch ->
  get_immich_server_version_number w self fuel s
      = (Returns
           [ {| name := metrics_prefix (config self) ++ "_server_info_version_number";
                value := PBool true;
                help := "server version number";
                labels := Some [("version",
                                 py_str major ++ "." ++ py_str minor ++ "."
                                   ++ py_str patch)];
                type := None |} ],
         s').
Proof.
  intros Hf Hmaj Hmin Hpat.
  unfold get_immich_server_version_number.
  rewrite (bind_step _ _ _ _ _ Hf).
  rewrite Hmaj, Hmin, Hpat. cbn [lift]. unfold bind, ret.
  do 3 f_equal.
  unfold bool_of_str.
  destruct (py_str major); reflexivity.
Qed.

End VersionFacts.

(* ===================================================================== *)
(** * The storage transformer *)
(* ===================================================================== *)

Section StorageFacts.
Context {RT : Runtime}.
Variable w : world.
Variable self : ImmichMetricsCollector.
Local Open Scope py_scope.

(** C8.  When [/storage] answers with a document that has the four
    fields, the transformer returns exactly four records, without labels
    and of kind gauge, named after the prefix, whose values are the fields
    [diskAvailableRaw], [diskSizeRaw], [diskUseRaw] and
    [diskUsagePercentage], in this order. *)
Theorem storage_records (s : state) (doc available size used percentage : pyval) :
  upstream w (requests_sent s) (combine_url self "/storage") = Response doc ->
  getitem doc "diskAvailableRaw" = Ok available ->
  getitem doc "diskSizeRaw" = Ok size ->
  getitem doc "diskUseRaw" = Ok used ->
  getitem doc "diskUsagePercentage" = Ok percentage ->
  exists ms,
    get_immich_storage w self s = (Returns ms, requested self s "/storage")
    /\ map shown ms =
       [ (metrics_prefix (config self) ++ "_server_info_diskAvailable",
          available, [], "gauge");
         (metrics_prefix (config self) ++ "_server_info_totalDiskSize",
          size, [], "gauge");
         (metrics_prefix (config self) ++ "_server_info_diskUse",
          used, [], "gauge");
         (metrics_prefix (config self) ++ "_server_info_diskUsagePercentage",
          percentage, [], "gauge") ].
Proof.
  intros Hup H1 H2 H3 H4. eexists. split.
  - unfold get_immich_storage, try_except, request, requests_request, bind.
    rewrite Hup. cbn [ret read_local]. unfold ret.
    rewrite H1, H2, H3, H4. cbn [lift]. unfold ret. reflexivity.
  - reflexivity.
Qed.

(** When the request to [/storage] fails, the error is logged and the
    transformer then reads [response_storage], which was never bound. *)
Lemma storage_transport_error (s : state) :
  upstream w (requests_sent s) (combine_url self "/storage") = TransportError ->
  get_immich_storage w self s
    = (Raises UnboundLocalError,
       logged (requested self s "/storage")
         (EvLog "error" "Couldn't get storage info: %s")).
Proof.
  intros Hup.
  unfold get_immich_storage, try_except, request, requests_request, bind.
  rewrite Hup. reflexivity.
Qed.

(** An absent field of the storage document is a KeyError. *)
Lemma storage_absent_field (s : state) (d : list (string * pyval)) (k : string) :
  upstream w (requests_sent s) (combine_url self "/storage") = Response (PDict d) ->
  In k ["diskAvailableRaw"; "diskSizeRaw"; "diskUseRaw"; "diskUsagePercentage"] ->
  lookup k d = None ->
  get_immich_storage w self s = (Raises KeyError, requested self s "/storage").
Proof.
  intros Hup Hin Hk.
  unfold get_immich_storage, try_except, request, requests_request, bind.
  rewrite Hup. cbn [ret read_local getitem]. unfold ret.
  cbn [In] in Hin.
  destruct (lookup "diskAvailableRaw" d) eqn:E1; [|reflexivity].
  destruct (lookup "diskSizeRaw" d) eqn:E2; [|reflexivity].
  destruct (lookup "diskUseRaw" d) eqn:E3; [|reflexivity].
  destruct (lookup "diskUsagePercentage" d) eqn:E4; [|reflexivity].
  exfalso. destruct Hin as [<-|[<-|[<-|[<-|[]]]]]; congruence.
Qed.

End StorageFacts.

(* ===================================================================== *)
(** * The user-statistics transformer *)
(* ===================================================================== *)

Section UsersFacts.
Context {RT : Runtime}.
Variable w : world.
Variable self : ImmichMetricsCollector.
Local Open Scope py_scope.

Lemma as_user_inv (v : pyval) (u : UserUsage) :
  as_user v = Some u ->
  exists d, v = PDict d
            /\ lookup "userName" d = Some (PStr (userName u))
            /\ lookup "photos" d = Some (PInt (photos u))
            /\ lookup "videos" d = Some (PInt (videos u))
            /\ lookup "usage" d = Some (PInt (usage u))
            /\ first_token (userName u) <> EmptyString.
Proof.
  destruct v as [| | | | |l|d]; try discriminate.
  unfold as_user.
  destruct (lookup "userName" d) as [[| | | |n| |]|] eqn:Hn; try discriminate.
  destruct (lookup "photos" d) as [[| |p| | | |]|] eqn:Hp; try discriminate.
  destruct (lookup "videos" d) as [[| |v| | | |]|] eqn:Hv; try discriminate.
  destruct (lookup "usage" d) as [[| |g| | | |]|] eqn:Hg; try discriminate.
  destruct (String.eqb_spec (first_token n) EmptyString) as [|Hne]; try discriminate.
  intros H. inversion H; subst; clear H. cbn.
  exists d. repeat split; auto.
Qed.

Lemma as_users_length (l : list pyval) :
  forall us, as_users l = Some us -> List.length us = List.length l.
Proof.
  induction l as [|v l IH]; intros us H; cbn in H.
  - now inversion H.
  - destruct (as_user v); try discriminate.
    destruct (as_users l) as [us'|]; try discriminate.
    inversion H; subst. cbn. f_equal. now apply IH.
Qed.

(** One turn of the loop on a valid entry: the three totals grow by the
    entry's fields and its three dicts are appended. *)
Lemma users_stat_body_valid (user_data v : pyval) (x : nat) (u : UserUsage)
    (a b c : Z) (ms : list metric) :
  getindex user_data x = Ok v ->
  as_user v = Some u ->
  users_stat_body self user_data x
    {| photos_growth_total := PInt a; videos_growth_total := PInt b;
       usage_growth_total := PInt c; metrics := ms |}
  = Ok {| photos_growth_total := PInt (a + photos u);
          videos_growth_total := PInt (b + videos u);
          usage_growth_total := PInt (c + usage u);
          metrics := (ms ++ user_dicts (metrics_prefix (config self)) u)%list |}.
Proof.
  intros Hget Hu.
  destruct (as_user_inv v u Hu) as (d & -> & Hn & Hp & Hv & Hg & Hne).
  unfold users_stat_body, user_metric, user_first_name, user_field.
  rewrite Hget. cbn [rbind getitem].
  rewrite Hn, Hp, Hv, Hg. cbn [rbind py_add photos_growth_total
    videos_growth_total usage_growth_total metrics].
  rewrite (split_first_str _ Hne). cbn [rbind]. reflexivity.
Qed.

Lemma users_loop_valid (l2 : list pyval) :
  forall (l1 l3 : list pyval) (us : list UserUsage) (a b c : Z) (ms : list metric),
    as_users l2 = Some us ->
    for_each (seq (List.length l1) (List.length l2))
      (users_stat_body self (PList (l1 ++ l2 ++ l3)))
      {| photos_growth_total := PInt a; videos_growth_total := PInt b;
         usage_growth_total := PInt c; metrics := ms |}
    = Ok {| photos_growth_total := PInt (a + sum_of photos us);
            videos_growth_total := PInt (b + sum_of videos us);
            usage_growth_total := PInt (c + sum_of usage us);
            metrics := (ms ++ flat_map (user_dicts (metrics_prefix (config self))) us)%list |}.
Proof.
  induction l2 as [|v l2 IH]; intros l1 l3 us a b c ms Hus; cbn in Hus.
  - inversion Hus; subst. cbn. rewrite !Z.add_0_r, app_nil_r. reflexivity.
  - destruct (as_user v) as [u|] eqn:Hu; try discriminate.
    destruct (as_users l2) as [us'|] eqn:Hus'; try discriminate.
    inversion Hus; subst; clear Hus.
    cbn [List.length seq for_each].
    rewrite (users_stat_body_valid _ v _ u).
    + cbn [rbind].
      replace (l1 ++ (v :: l2) ++ l3)%list with ((l1 ++ [v]) ++ l2 ++ l3)%list
        by (rewrite <- app_assoc; reflexivity).
      replace (S (List.length l1)) with (List.length (l1 ++ [v])%list)
        by (rewrite length_app; cbn; lia).
      rewrite (IH _ _ us').
      * cbn [flat_map]. unfold sum_of. cbn [map fold_right].
        rewrite !Z.add_assoc, <- !app_assoc. reflexivity.
      * reflexivity.
    + cbn [getindex]. rewrite nth_error_app2 by lia.
      rewrite Nat.sub_diag. reflexivity.
    + exact Hu.
Qed.

(** A valid statistics response: what the transformer returns. *)
Lemma users_stat_valid (s : state) (doc : pyval) (us : list UserUsage) :
  upstream w (requests_sent s) (combine_url self "/statistics") = Response doc ->
  as_statistics doc = Some us ->
  get_immich_users_stat w self s
    = (Returns (flat_map (user_dicts (metrics_prefix (config self))) us
                ++ aggregate_dicts (metrics_prefix (config self)) us)%list,
       requested self s "/statistics").
Proof.
  intros Hup Hdoc.
  destruct doc as [| | | | |l0|d]; try discriminate.
  cbn in Hdoc.
  destruct (lookup "usageByUser" d) as [[| | | | |l|]|] eqn:Hl; try discriminate.
  unfold get_immich_users_stat, try_except, request, requests_request, bind.
  rewrite Hup. cbv [ret read_local getitem lift].
  rewrite Hl. cbv [py_len ret lift].
  pose proof (users_loop_valid l [] [] us 0 0 0 [] Hdoc) as Hloop.
  rewrite app_nil_r in Hloop. cbn [List.length app] in Hloop. rewrite Hloop.
  cbn [metrics photos_growth_total videos_growth_total usage_growth_total app].
  unfold aggregate_dicts, requested.
  rewrite (as_users_length l us Hdoc). reflexivity.
Qed.

Lemma shown_user_dicts (prefix : string) (us : list UserUsage) :
  map shown (flat_map (user_dicts prefix) us) = flat_map (user_records prefix) us.
Proof.
  induction us as [|u us IH]; [reflexivity|].
  cbn [flat_map]. rewrite map_app, IH. reflexivity.
Qed.

Lemma length_user_dicts (prefix : string) (us : list UserUsage) :
  List.length (flat_map (user_dicts prefix) us) = (3 * List.length us)%nat.
Proof.
  induction us as [|u us IH]; [reflexivity|].
  cbn [flat_map]. rewrite length_app, IH. cbn [List.length user_dicts]. lia.
Qed.

(** C6.  For a valid statistics response the transformer returns, for
    each user in order, three gauge records (photos, videos, usage) whose
    only label, [firstName], is the first whitespace-delimited token of the
    user's [userName], and after them the four aggregate records: three
    records per user plus four. *)
Theorem users_stat_records (s : state) (doc : pyval) (us : list UserUsage) :
  upstream w (requests_sent s) (combine_url self "/statistics") = Response doc ->
  as_statistics doc = Some us ->
  exists ms,
    get_immich_users_stat w self s = (Returns ms, requested self s "/statistics")
    /\ map shown ms
       = (flat_map (user_records (metrics_prefix (config self))) us
          ++ aggregate_records (metrics_prefix (config self)) us)%list
    /\ List.length ms = (3 * List.length us + 4)%nat.
Proof.
  intros Hup Hdoc. eexists. split; [|split].
  - eapply users_stat_valid; eassumption.
  - rewrite map_app, shown_user_dicts. reflexivity.
  - rewrite length_app, length_user_dicts. reflexivity.
Qed.

Lemma values_named_app (n : string) (l1 l2 : list metric) :
  values_named n (l1 ++ l2) = (values_named n l1 ++ values_named n l2)%list.
Proof. unfold values_named. now rewrite filter_app, map_app. Qed.

(** No per-user record bears the name of an aggregate. *)
Lemma values_named_user_dicts (prefix suffix : string) (us : list UserUsage) :
  In suffix ["_server_stats_user_count"; "_server_stats_photos_growth";
             "_server_stats_videos_growth"; "_server_stats_usage_growth"] ->
  values_named (prefix ++ suffix) (flat_map (user_dicts prefix) us) = [].
Proof.
  intros Hin. induction us as [|u us IH]; [reflexivity|].
  cbn [flat_map]. rewrite values_named_app, IH, app_nil_r.
  unfold values_named, user_dicts. cbn [filter name].
  rewrite !eqb_append_l.
  cbn [In] in Hin.
  destruct Hin as [<-|[<-|[<-|[<-|[]]]]]; reflexivity.
Qed.

(** C5.  For a valid statistics response whose [usageByUser] is the array
    [l], there is exactly one record of each aggregate name: the user count
    is the length of [l], and the photos, videos and usage growth are the
    sums of the users' [photos], [videos] and [usage]. *)
Theorem users_stat_totals (s : state) (doc : pyval) (l : list pyval)
    (us : list UserUsage) :
  upstream w (requests_sent s) (combine_url self "/statistics") = Response doc ->
  getitem doc "usageByUser" = Ok (PList l) ->
  as_statistics doc = Some us ->
  exists ms,
    get_immich_users_stat w self s = (Returns ms, requested self s "/statistics")
    /\ values_named (metrics_prefix (config self) ++ "_server_stats_user_count") ms
       = [PInt (Z.of_nat (List.length l))]
    /\ values_named (metrics_prefix (config self) ++ "_server_stats_photos_growth") ms
       = [PInt (sum_of photos us)]
    /\ values_named (metrics_prefix (config self) ++ "_server_stats_videos_growth") ms
       = [PInt (sum_of videos us)]
    /\ values_named (metrics_prefix (config self) ++ "_server_stats_usage_growth") ms
       = [PInt (sum_of usage us)].
Proof.
  intros Hup Hl Hdoc.
  assert (Hlen : List.length us = List.length l).
  { destruct doc as [| | | | |l0|d]; try discriminate.
    cbn in Hl, Hdoc.
    destruct (lookup "usageByUser" d) as [x|]; try discriminate.
    inversion Hl; subst. now apply as_users_length. }
  eexists. split; [eapply users_stat_valid; eassumption|].
  rewrite <- Hlen.
  repeat split;
    rewrite values_named_app, values_named_user_dicts by (cbn; tauto);
    unfold values_named, aggregate_dicts; cbn [filter name app];
    rewrite !eqb_append_l; reflexivity.
Qed.

(** When the request to [/statistics] fails, the error is logged and the
    transformer then reads [response_user_stats], which was never bound. *)
Lemma users_stat_transport_error (s : state) :
  upstream w (requests_sent s) (combine_url self "/statistics") = TransportError ->
  get_immich_users_stat w self s
    = (Raises UnboundLocalError,
       logged (requested self s "/statistics")
         (EvLog "error" "API ERROR: can't get server statistic: %s")).
Proof.
  intros Hup.
  unfold get_immich_users_stat, try_except, request, requests_request, bind.
  rewrite Hup. reflexivity.
Qed.

Lemma lookup_without_key (k : string) (d : list (string * pyval)) :
  lookup k (without_key k d) = None.
Proof.
  induction d as [|[k' v] d IH]; [reflexivity|].
  cbn [without_key filter fst]. fold (without_key k d).
  destruct (String.eqb k k') eqn:E; cbn [negb]; [exact IH|].
  cbn [lookup]. now rewrite E.
Qed.

Lemma lookup_without_other (k k' : string) (d : list (string * pyval)) :
  String.eqb k k' = false ->
  lookup k' (without_key k d) = lookup k' d.
Proof.
  intros Hne. induction d as [|[k0 v] d IH]; [reflexivity|].
  cbn [without_key filter fst]. fold (without_key k d).
  destruct (String.eqb k k0) eqn:E; cbn [negb lookup].
  - apply String.eqb_eq in E. subst k0.
    rewrite String.eqb_sym, Hne. exact IH.
  - now rewrite IH.
Qed.

(** One turn of the loop on an entry that lacks a field. *)
Lemma users_stat_body_absent_field (user_data : pyval) (x : nat)
    (d : list (string * pyval)) (u : UserUsage) (k : string)
    (a b c : Z) (ms : list metric) :
  getindex user_data x = Ok (PDict (without_key k d)) ->
  as_user (PDict d) = Some u ->
  In k ["photos"; "videos"; "usage"; "userName"] ->
  users_stat_body self user_data x
    {| photos_growth_total := PInt a; videos_growth_total := PInt b;
       usage_growth_total := PInt c; metrics := ms |}
  = Err KeyError.
Proof.
  intros Hget Hu Hin.
  destruct (as_user_inv _ u Hu) as (d' & Hd & Hn & Hp & Hv & Hg & Hne).
  inversion Hd; subst d'; clear Hd.
  unfold users_stat_body, user_metric, user_first_name, user_field.
  rewrite Hget. cbn [rbind getitem In] in *.
  destruct Hin as [<-|[<-|[<-|[<-|[]]]]];
    rewrite ?lookup_without_key, ?lookup_without_other by reflexivity;
    rewrite ?Hn, ?Hp, ?Hv, ?Hg; reflexivity.
Qed.

Lemma for_each_app {A S : Type} (xs ys : list A) (body : A -> S -> result S)
    (acc : S) :
  for_each (xs ++ ys) body acc = rbind (for_each xs body acc) (for_each ys body).
Proof.
  revert acc. induction xs as [|x xs IH]; intros acc; cbn; [reflexivity|].
  destruct (body x acc); cbn; auto.
Qed.

(** An absent field of the statistics document is a KeyError. *)
Lemma users_stat_absent_field (s : state) (d : list (string * pyval)) :
  upstream w (requests_sent s) (combine_url self "/statistics")
    = Response (PDict d) ->
  statistics_lacks_field d ->
  get_immich_users_stat w self s
    = (Raises KeyError, requested self s "/statistics").
Proof.
  intros Hup Hlack.
  unfold get_immich_users_stat, try_except, request, requests_request, bind.
  rewrite Hup. cbv [ret read_local getitem lift].
  destruct Hlack as [Hnone | (la & us & d0 & u & k & lb & Hl & Hla & Hu & Hin)].
  - rewrite Hnone. reflexivity.
  - rewrite Hl. cbv [py_len ret lift].
    rewrite length_app. cbn [List.length].
    rewrite seq_app, for_each_app.
    pose proof (users_loop_valid la [] (PDict (without_key k d0) :: lb) us
                  0 0 0 [] Hla) as Hloop.
    cbn [List.length app] in Hloop. rewrite Hloop. cbn [rbind seq for_each].
    rewrite (users_stat_body_absent_field _ _ d0 u k); [reflexivity| |exact Hu|exact Hin].
    cbn [getindex Nat.add]. rewrite nth_error_app2 by lia.
    rewrite Nat.sub_diag. reflexivity.
Qed.

End UsersFacts.

(* ===================================================================== *)
(** * One collection cycle *)
(* ===================================================================== *)

Section CycleFacts.
Context {RT : Runtime}.
Variable w : world.
Variable self : ImmichMetricsCollector.
Local Open Scope py_scope.

Ltac bind_inv H :=
  repeat (cbv beta zeta in H;
          let a := fresh "a" in
          let s := fresh "s" in
          let Ha := fresh "Ha" in
          let H' := fresh "H" in
          destruct (bind_returns _ _ _ _ _ H) as (a & s & Ha & H');
          clear H; rename H' into H);
  cbv beta zeta in H.

Ltac keyed :=
  repeat (apply Forall_cons; [eexists; split; reflexivity|]); try apply Forall_nil.

Lemma for_each_invariant {A S : Type} (P : S -> Prop) (body : A -> S -> result S) :
  (forall x acc acc', body x acc = Ok acc' -> P acc -> P acc') ->
  forall xs acc acc', for_each xs body acc = Ok acc' -> P acc -> P acc'.
Proof.
  intros Hbody. induction xs as [|x xs IH]; intros acc acc' H HP; cbn in H.
  - now inversion H; subst.
  - destruct (rbind_ok _ _ _ H) as (acc1 & H1 & H2). eauto.
Qed.

Lemma user_metric_keys (user_data : pyval) (x : nat) (suffix key : string)
    (m : metric) :
  user_metric self user_data x suffix key = Ok m ->
  name m = metrics_prefix (config self) ++ suffix /\ label_keys m = ["firstName"].
Proof.
  unfold user_metric. intros H.
  destruct (rbind_ok _ _ _ H) as (v & _ & H1).
  destruct (rbind_ok _ _ _ H1) as (l & _ & H2).
  destruct (rbind_ok _ _ _ H2) as (l' & _ & H3).
  inversion H3; subst. split; reflexivity.
Qed.

Lemma users_stat_body_keys (user_data : pyval) (x : nat) (l l' : users_locals) :
  users_stat_body self user_data x l = Ok l' ->
  Forall (well_keyed (metrics_prefix (config self))) (metrics l) ->
  Forall (well_keyed (metrics_prefix (config self))) (metrics l').
Proof.
  unfold users_stat_body. intros H Hl.
  repeat match type of H with
         | rbind (user_metric _ _ _ _ _) _ = Ok _ => fail 1
         | rbind _ _ = Ok _ =>
             let H' := fresh "H" in
             destruct (rbind_ok _ _ _ H) as (? & _ & H'); clear H; rename H' into H
         end.
  destruct (rbind_ok _ _ _ H) as (m1 & Hm1 & H1).
  destruct (rbind_ok _ _ _ H1) as (m2 & Hm2 & H2).
  destruct (rbind_ok _ _ _ H2) as (m3 & Hm3 & H3).
  inversion H3; subst; clear H3. cbn [metrics].
  apply user_metric_keys in Hm1, Hm2, Hm3.
  destruct Hm1 as [N1 K1], Hm2 as [N2 K2], Hm3 as [N3 K3].
  apply Forall_app. split; [exact Hl|].
  repeat (apply Forall_cons; [eexists; split; [eassumption | assumption]|]).
  apply Forall_nil.
Qed.

Lemma users_stat_keys (s s' : state) (ms : list metric) :
  get_immich_users_stat w self s = (Returns ms, s') ->
  Forall (well_keyed (metrics_prefix (config self))) ms.
Proof.
  unfold get_immich_users_stat. intros H. bind_inv H.
  apply lift_returns in Ha2 as [Hloop _].
  inversion H; subst; clear H.
  apply Forall_app. split.
  - eapply (for_each_invariant
              (fun l => Forall (well_keyed (metrics_prefix (config self))) (metrics l)));
      [| exact Hloop | apply Forall_nil].
    intros x acc acc'. apply users_stat_body_keys.
  - keyed.
Qed.

Lemma storage_keys (s s' : state) (ms : list metric) :
  get_immich_storage w self s = (Returns ms, s') ->
  Forall (well_keyed (metrics_prefix (config self))) ms.
Proof.
  unfold get_immich_storage. intros H. bind_inv H.
  inversion H; subst; clear H. keyed.
Qed.

Lemma version_keys (fuel : nat) (s s' : state) (ms : list metric) :
  get_immich_server_version_number w self fuel s = (Returns ms, s') ->
  Forall (well_keyed (metrics_prefix (config self))) ms.
Proof.
  unfold get_immich_server_version_number. intros H. bind_inv H.
  inversion H; subst; clear H. keyed.
Qed.

Lemma system_keys (s s' : state) (ms : list metric) :
  get_system_stats w self s = (Returns ms, s') ->
  Forall (well_keyed (metrics_prefix (config self))) ms.
Proof.
  unfold get_system_stats.
  destruct (load_avg (host w)) as [[l1 l5] l15].
  destruct (virtual_mem (host w)) as [[[[v0 v1] v2] v3] v4].
  intros H. inversion H; subst; clear H. keyed.
Qed.

Lemma metrics_keys (fuel : nat) (s s' : state) (ms : list metric) :
  get_immich_metrics w self fuel s = (Returns ms, s') ->
  Forall (well_keyed (metrics_prefix (config self))) ms.
Proof.
  unfold get_immich_metrics. intros H. bind_inv H.
  inversion H; subst; clear H.
  apply version_keys in Ha. apply storage_keys in Ha0.
  apply users_stat_keys in Ha1. apply system_keys in Ha2.
  repeat (apply Forall_app; split); auto.
Qed.

Lemma well_keyed_consistent (prefix : string) (ms : list metric) :
  Forall (well_keyed prefix) ms -> label_keys_consistent ms.
Proof.
  intros Hall m1 m2 H1 H2 Hname.
  rewrite Forall_forall in Hall.
  destruct (Hall _ H1) as (x1 & N1 & K1).
  destruct (Hall _ H2) as (x2 & N2 & K2).
  rewrite N1, N2 in Hname. apply append_cancel_l in Hname. congruence.
Qed.

Lemma yield_all_returns (ms : list metric) :
  forall s, exists s', yield_all ms s = (Returns (map to_family ms), s').
Proof.
  induction ms as [|m ms IH]; intros s; cbn [yield_all map].
  - eexists. reflexivity.
  - unfold bind at 1, logger_debug, emit.
    destruct (IH (logged s (EvLog "debug" (family_name (to_family m))))) as (s' & Hs').
    unfold bind. rewrite Hs'. eexists. reflexivity.
Qed.

(** C9.  In every cycle, two records of the same name have the same label
    keys in the same order, and so have the families [collect] yields. *)
Theorem label_keys_per_family (fuel : nat) (s : state) :
  (forall ms s', get_immich_metrics w self fuel s = (Returns ms, s') ->
                 label_keys_consistent ms)
  /\ (forall fams s', collect w self fuel s = (Returns fams, s') ->
        forall f1 f2, In f1 fams -> In f2 fams ->
                      family_name f1 = family_name f2 ->
                      labelnames f1 = labelnames f2).
Proof.
  split.
  - intros ms s' H. eapply well_keyed_consistent, metrics_keys, H.
  - intros fams s' H f1 f2 H1 H2 Hname.
    unfold collect in H. bind_inv H.
    destruct (yield_all_returns a0 s1) as (s2 & Hy).
    rewrite Hy in H. inversion H; subst; clear H.
    apply in_map_iff in H1 as (m1 & <- & I1), H2 as (m2 & <- & I2).
    apply metrics_keys, well_keyed_consistent in Ha0.
    exact (Ha0 m1 m2 I1 I2 Hname).
Qed.

End CycleFacts.

(* ===================================================================== *)
(** * Failures inside a cycle *)
(* ===================================================================== *)

Section FailureFacts.
Context {RT : Runtime}.
Variable w : world.
Variable self : ImmichMetricsCollector.
Local Open Scope py_scope.

(** An exception of [get_immich_metrics] leaves [collect] as it is. *)
Lemma collect_raises (fuel : nat) (s s' : state) (e : exn) :
  get_immich_metrics w self fuel (entered s) = (Raises e, s') ->
  collect w self fuel s = (Raises e, s').
Proof.
  intros H. unfold collect. unfold bind at 1, logger_info, emit.
  fold (entered s). now apply bind_raises.
Qed.

Lemma collect_running (fuel : nat) (s s' : state) :
  get_immich_metrics w self fuel (entered s) = (Running, s') ->
  collect w self fuel s = (Running, s').
Proof.
  intros H. unfold collect. unfold bind at 1, logger_info, emit.
  fold (entered s). now apply bind_running.
Qed.

(** An exception of a transformer leaves [get_immich_metrics] as it is:
    the lists the transformers before it returned are lost with it. *)
Lemma version_raises (fuel : nat) (s s' : state) (e : exn) :
  get_immich_server_version_number w self fuel s = (Raises e, s') ->
  get_immich_metrics w self fuel s = (Raises e, s').
Proof. intros H. unfold get_immich_metrics. now apply bind_raises. Qed.

Lemma storage_raises (fuel : nat) (s s1 s' : state) (ms1 : list metric) (e : exn) :
  get_immich_server_version_number w self fuel s = (Returns ms1, s1) ->
  get_immich_storage w self s1 = (Raises e, s') ->
  get_immich_metrics w self fuel s = (Raises e, s').
Proof.
  intros H1 H2. unfold get_immich_metrics.
  rewrite (bind_step _ _ _ _ _ H1). now apply bind_raises.
Qed.

Lemma users_stat_raises (fuel : nat) (s s1 s2 s' : state) (ms1 ms2 : list metric)
    (e : exn) :
  get_immich_server_version_number w self fuel s = (Returns ms1, s1) ->
  get_immich_storage w self s1 = (Returns ms2, s2) ->
  get_immich_users_stat w self s2 = (Raises e, s') ->
  get_immich_metrics w self fuel s = (Raises e, s').
Proof.
  intros H1 H2 H3. unfold get_immich_metrics.
  rewrite (bind_step _ _ _ _ _ H1). cbv zeta.
  rewrite (bind_step _ _ _ _ _ H2). now apply bind_raises.
Qed.

(** An absent field of the version document is a KeyError. *)
Lemma version_absent_field (fuel : nat) (s s1 : state) (d : list (string * pyval))
    (k : string) :
  fetch_server_version w self fuel s = (Returns (PDict d), s1) ->
  In k ["major"; "minor"; "patch"] ->
  lookup k d = None ->
  get_immich_server_version_number w self fuel s = (Raises KeyError, s1).
Proof.
  intros Hf Hin Hk. unfold get_immich_server_version_number.
  rewrite (bind_step _ _ _ _ _ Hf). unfold bind. cbn [getitem In] in *.
  destruct (lookup "major" d) eqn:E1; [|reflexivity].
  destruct (lookup "minor" d) eqn:E2; [|reflexivity].
  destruct (lookup "patch" d) eqn:E3; [|reflexivity].
  exfalso. destruct Hin as [<-|[<-|[<-|[]]]]; congruence.
Qed.

(** What the transport failure of [/storage] does to a cycle in which the
    version was obtained: the error is logged and the cycle ends with
    UnboundLocalError. *)
Lemma storage_failure_aborts_cycle (fuel : nat) (s s1 : state) (ms1 : list metric) :
  get_immich_server_version_number w self fuel (entered s) = (Returns ms1, s1) ->
  upstream w (requests_sent s1) (combine_url self "/storage") = TransportError ->
  collect w self fuel s
    = (Raises UnboundLocalError,
       logged (requested self s1 "/storage")
         (EvLog "error" "Couldn't get storage info: %s")).
Proof.
  intros Hv Hup. apply collect_raises.
  eapply storage_raises; [exact Hv|]. now apply storage_transport_error.
Qed.

(** C4, as the code has it.  When a response lacks an expected field the
    transformer that reads it raises KeyError, nothing catches it, and
    [collect] ends with KeyError: no record of the cycle is produced, of
    this transformer or of another.  This holds for a version document
    without one of its three fields, for a storage document without one of
    its four fields, and for a statistics document that lacks a field. *)
Theorem absent_field_aborts_cycle (fuel : nat) (s : state) :
  (forall d k s1,
     fetch_server_version w self fuel (entered s) = (Returns (PDict d), s1) ->
     In k ["major"; "minor"; "patch"] ->
     lookup k d = None ->
     collect w self fuel s = (Raises KeyError, s1))
  /\ (forall ms1 s1 d k,
        get_immich_server_version_number w self fuel (entered s) = (Returns ms1, s1) ->
        upstream w (requests_sent s1) (combine_url self "/storage")
          = Response (PDict d) ->
        In k ["diskAvailableRaw"; "diskSizeRaw"; "diskUseRaw"; "diskUsagePercentage"] ->
        lookup k d = None ->
        collect w self fuel s = (Raises KeyError, requested self s1 "/storage"))
  /\ (forall ms1 s1 ms2 s2 d,
        get_immich_server_version_number w self fuel (entered s) = (Returns ms1, s1) ->
        get_immich_storage w self s1 = (Returns ms2, s2) ->
        upstream w (requests_sent s2) (combine_url self "/statistics")
          = Response (PDict d) ->
        statistics_lacks_field d ->
        collect w self fuel s = (Raises KeyError, requested self s2 "/statistics")).
Proof.
  repeat split.
  - intros d k s1 Hf Hin Hk. apply collect_raises, version_raises.
    eapply version_absent_field; eassumption.
  - intros ms1 s1 d k Hv Hup Hin Hk. apply collect_raises.
    eapply storage_raises; [exact Hv|].
    eapply storage_absent_field; eassumption.
  - intros ms1 s1 ms2 s2 d Hv Hs Hup Hlack. apply collect_raises.
    eapply users_stat_raises; [exact Hv | exact Hs |].
    eapply users_stat_absent_field; eassumption.
Qed.

(** The storage and the statistics transformers send one request each,
    whatever comes of it. *)
Lemma storage_one_request (s s' : state) (o : outcome (list metric)) :
  get_immich_storage w self s = (o, s') ->
  requests_sent s' = S (requests_sent s).
Proof.
  unfold get_immich_storage, try_except, request, requests_request, bind.
  destruct (upstream w (requests_sent s) (combine_url self "/storage")) as [|doc].
  - cbn. intros H. now inversion H.
  - cbv [ret read_local lift].
    repeat match goal with
           | |- context [getitem doc ?k] => destruct (getitem doc k)
           end; intros H; now inversion H.
Qed.

Lemma users_stat_one_request (s s' : state) (o : outcome (list metric)) :
  get_immich_users_stat w self s = (o, s') ->
  requests_sent s' = S (requests_sent s).
Proof.
  unfold get_immich_users_stat, try_except, request, requests_request, bind.
  destruct (upstream w (requests_sent s) (combine_url self "/statistics")) as [|doc].
  - cbn. intros H. now inversion H.
  - cbv [ret read_local lift].
    destruct (getitem doc "usageByUser") as [u|]; [|intros H; now inversion H].
    destruct (py_len u) as [n|]; [|intros H; now inversion H].
    destruct (for_each _ _ _); intros H; now inversion H.
Qed.

(** C10.  The fetch of [/version] is repeated at once, without a sleep,
    for as long as the request raises a transport error, and ends with the
    first request that is answered; when no request to [/version] is ever
    answered, [collect] is still running whatever the fuel, having slept
    at no time; the storage and statistics transformers send a single
    request and never repeat it. *)
Theorem version_fetch_never_gives_up (fuel : nat) (s : state) :
  (forall k doc,
     (forall i, (i < k)%nat ->
        upstream w (requests_sent s + i)%nat (combine_url self "/version")
          = TransportError) ->
     upstream w (requests_sent s + k)%nat (combine_url self "/version")
       = Response doc ->
     (k < fuel)%nat ->
     fetch_server_version w self fuel s
       = (Returns doc,
          {| requests_sent := requests_sent s + k + 1;
             events := events s
                       ++ failed_fetches (combine_url self "/version")
                            "Couldn't get server version" k
                       ++ [EvRequest (combine_url self "/version")] |}))
  /\ ((forall i,
         upstream w (requests_sent s + i)%nat (combine_url self "/version")
           = TransportError) ->
      exists s', collect w self fuel s = (Running, s')
                 /\ requests_sent s' = (requests_sent s + fuel)%nat
                 /\ sleeps (events s') = sleeps (events s))
  /\ (forall o s', get_immich_storage w self s = (o, s') ->
                   requests_sent s' = S (requests_sent s))
  /\ (forall o s', get_immich_users_stat w self s = (o, s') ->
                   requests_sent s' = S (requests_sent s)).
Proof.
  split; [|split; [|split]].
  - intros k doc Hfail Hok Hfuel. now apply fetch_server_version_retries.
  - intros Hfail. eexists. split; [|split].
    + apply collect_running. unfold get_immich_metrics, get_immich_server_version_number.
      apply bind_running, bind_running.
      apply fetch_server_version_spins. exact Hfail.
    + reflexivity.
    + cbn [events entered logged]. rewrite !sleeps_app, sleeps_failed_fetches.
      cbn [sleeps]. now rewrite !app_nil_r.
  - intros o s'. apply storage_one_request.
  - intros o s'. apply users_stat_one_request.
Qed.

End FailureFacts.

(* ===================================================================== *)
(** * The scenarios, run *)
(* ===================================================================== *)

Section ScenarioFacts.
#[local] Existing Instance integer_runtime.

(** C1, at the scenario of the specification.  [/version] and
    [/statistics] answer and [/storage] fails with a transport error: the
    error is logged, and then [collect] ends with UnboundLocalError after
    two requests; [/statistics] is never asked and no record is returned,
    however much fuel the version loop is given. *)
Theorem storage_failure_crashes_scrape :
  collect world_storage_down exporter 1 start
    = (Raises UnboundLocalError,
       {| requests_sent := 2;
          events := [ EvLog "info" "Requested the metrics";
                      EvRequest "http://immich:2283/api/server/version";
                      EvRequest "http://immich:2283/api/server/storage";
                      EvLog "error" "Couldn't get storage info: %s" ] |})
  /\ (forall fuel,
        fst (collect world_storage_down exporter (S fuel) start)
          = Raises UnboundLocalError).
Proof.
  split.
  - reflexivity.
  - intros fuel. reflexivity.
Qed.

(** C4, as the specification states it, fails: [/statistics] answers with
    a document whose user has no "videos", and [collect] ends with KeyError
    instead of returning the records of the other transformers. *)
Lemma absent_field_crashes_scrape :
  collect world_missing_field exporter 1 start
    = (Raises KeyError,
       {| requests_sent := 3;
          events := [ EvLog "info" "Requested the metrics";
                      EvRequest "http://immich:2283/api/server/version";
                      EvRequest "http://immich:2283/api/server/storage";
                      EvRequest "http://immich:2283/api/server/statistics" ] |})
  /\ (forall fuel fams s',
        collect world_missing_field exporter fuel start <> (Returns fams, s')).
Proof.
  split.
  - reflexivity.
  - intros fuel fams s' H. destruct fuel; vm_compute in H; discriminate.
Qed.

Lemma absent_field_aborts_cycle_witness :
  exists s1 s2 s3,
    collect world_version_without_patch exporter 1 start = (Raises KeyError, s1)
    /\ collect world_storage_without_size exporter 1 start = (Raises KeyError, s2)
    /\ collect world_missing_field exporter 1 start = (Raises KeyError, s3).
Proof.
  do 3 eexists. split; [|split].
  - eapply (proj1 (absent_field_aborts_cycle world_version_without_patch
                     exporter 1 start)) with (k := "patch").
    + reflexivity.
    + cbn. auto.
    + reflexivity.
  - eapply (proj1 (proj2 (absent_field_aborts_cycle world_storage_without_size
                            exporter 1 start))) with (k := "diskSizeRaw").
    + reflexivity.
    + reflexivity.
    + cbn. auto.
    + reflexivity.
  - eapply (proj2 (proj2 (absent_field_aborts_cycle world_missing_field
                            exporter 1 start))).
    + reflexivity.
    + reflexivity.
    + reflexivity.
    + right.
      exists [], [],
        [("userName", PStr "Ann Lee"); ("photos", PInt 3); ("videos", PInt 1);
         ("usage", PInt 100)],
        {| userName := "Ann Lee"; photos := 3; videos := 1; usage := 100 |},
        "videos", [].
      repeat split; try reflexivity. cbn. auto.
Defined.

Lemma check_server_up_backoff_witness :
  exists s',
    check_server_up (up_after 302 PNone) "immich" "2283" 303 start = (Returns tt, s')
    /\ sleeps (events s')
       = (sleeps (events start) ++ map tiered_backoff (attempts 302) ++ [1])%list.
Proof.
  apply (check_server_up_backoff (up_after 302 PNone) "immich" "2283" 302 303
           start PNone).
  - intros i Hi. unfold up_after. cbn [start requests_sent Nat.add].
    destruct (Nat.ltb_spec i 302); [reflexivity | lia].
  - reflexivity.
  - lia.
Defined.

(** The sleeps of the probe when the first 302 pings fail: sixty of one
    second, two hundred and forty of fifteen, two of sixty, and the pause
    of one second before the banner. *)
Example check_server_up_302_failures :
  sleeps (events (snd (check_server_up (up_after 302 PNone) "immich" "2283" 303 start)))
  = (repeat 1 60 ++ repeat 15 240 ++ repeat 60 2 ++ [1])%list.
Proof. vm_compute. reflexivity. Qed.

Lemma users_stat_totals_witness :
  exists ms,
    get_immich_users_stat world_ok exporter start
      = (Returns ms, requested exporter start "/statistics")
    /\ values_named "immich_server_stats_user_count" ms = [PInt 2]
    /\ values_named "immich_server_stats_photos_growth" ms = [PInt 5]
    /\ values_named "immich_server_stats_videos_growth" ms = [PInt 1]
    /\ values_named "immich_server_stats_usage_growth" ms = [PInt 150].
Proof.
  apply (users_stat_totals world_ok exporter start statistics_doc
           [user_doc "Ann Lee" 3 1 100; user_doc "Bo Ng" 2 0 50]
           [ {| userName := "Ann Lee"; photos := 3; videos := 1; usage := 100 |};
             {| userName := "Bo Ng"; photos := 2; videos := 0; usage := 50 |} ]);
    reflexivity.
Defined.

Lemma users_stat_records_witness :
  exists ms,
    get_immich_users_stat world_ok exporter start
      = (Returns ms, requested exporter start "/statistics")
    /\ map shown ms
       = [ ("immich_server_stats_photos_by_users", PInt 3, [("firstName", "Ann")], "gauge");
           ("immich_server_stats_videos_by_users", PInt 1, [("firstName", "Ann")], "gauge");
           ("immich_server_stats_usage_by_users", PInt 100, [("firstName", "Ann")], "gauge");
           ("immich_server_stats_photos_by_users", PInt 2, [("firstName", "Bo")], "gauge");
           ("immich_server_stats_videos_by_users", PInt 0, [("firstName", "Bo")], "gauge");
           ("immich_server_stats_usage_by_users", PInt 50, [("firstName", "Bo")], "gauge");
           ("immich_server_stats_user_count", PInt 2, [], "gauge");
           ("immich_server_stats_photos_growth", PInt 5, [], "gauge");
           ("immich_server_stats_videos_growth", PInt 1, [], "gauge");
           ("immich_server_stats_usage_growth", PInt 150, [], "gauge") ]
    /\ List.length ms = 10%nat.
Proof.
  apply (users_stat_records world_ok exporter start statistics_doc
           [ {| userName := "Ann Lee"; photos := 3; videos := 1; usage := 100 |};
             {| userName := "Bo Ng"; photos := 2; videos := 0; usage := 50 |} ]);
    reflexivity.
Defined.

Lemma version_record_witness :
  get_immich_server_version_number world_ok exporter 1 start
    = (Returns [ {| name := "immich_server_info_version_number";
                    value := PBool true;
                    help := "server version number";
                    labels := Some [("version", "1.2.3")];
                    type := None |} ],
       requested exporter start "/version").
Proof.
  apply (version_record world_ok exporter 1 start (requested exporter start "/version")
           version_doc (PInt 1) (PInt 2) (PInt 3)); reflexivity.
Defined.

Lemma storage_records_witness :
  exists ms,
    get_immich_storage world_ok exporter start
      = (Returns ms, requested exporter start "/storage")
    /\ map shown ms
       = [ ("immich_server_info_diskAvailable", PInt 100, [], "gauge");
           ("immich_server_info_totalDiskSize", PInt 500, [], "gauge");
           ("immich_server_info_diskUse", PInt 400, [], "gauge");
           ("immich_server_info_diskUsagePercentage", PInt 80, [], "gauge") ].
Proof.
  apply (storage_records world_ok exporter start storage_doc
           (PInt 100) (PInt 500) (PInt 400) (PInt 80)); reflexivity.
Defined.

Lemma label_keys_per_family_witness :
  (exists ms s',
     get_immich_metrics world_ok exporter 1 start = (Returns ms, s')
     /\ List.length ms = 24%nat
     /\ label_keys_consistent ms)
  /\ (exists fams s',
        collect world_ok exporter 1 start = (Returns fams, s')
        /\ forall f1 f2, In f1 fams -> In f2 fams ->
                         family_name f1 = family_name f2 ->
                         labelnames f1 = labelnames f2).
Proof.
  split.
  - eexists. eexists. split; [cbv; reflexivity|]. split; [reflexivity|].
    eapply (proj1 (label_keys_per_family world_ok exporter 1 start)).
    cbv. reflexivity.
  - eexists. eexists. split; [cbv; reflexivity|].
    eapply (proj2 (label_keys_per_family world_ok exporter 1 start)).
    cbv. reflexivity.
Defined.

Lemma version_fetch_never_gives_up_witness :
  fetch_server_version world_booting exporter 10 start
    = (Returns version_doc,
       {| requests_sent := 4;
          events := [ EvRequest "http://immich:2283/api/server/version";
                      EvLog "error" "Couldn't get server version";
                      EvRequest "http://immich:2283/api/server/version";
                      EvLog "error" "Couldn't get server version";
                      EvRequest "http://immich:2283/api/server/version";
                      EvLog "error" "Couldn't get server version";
                      EvRequest "http://immich:2283/api/server/version" ] |})
  /\ (exists s', collect world_down exporter 50 start = (Running, s')
                 /\ requests_sent s' = 50%nat
                 /\ sleeps (events s') = [])
  /\ requests_sent (snd (get_immich_storage world_down exporter start)) = 1%nat
  /\ requests_sent (snd (get_immich_users_stat world_down exporter start)) = 1%nat.
Proof.
  split; [|split; [|split]].
  - apply (proj1 (version_fetch_never_gives_up world_booting exporter 10 start)
             3%nat version_doc).
    + intros i Hi. cbn [world_booting upstream start requests_sent Nat.add].
      destruct (Nat.ltb_spec i 3); [reflexivity | lia].
    + reflexivity.
    + lia.
  - apply (proj1 (proj2 (version_fetch_never_gives_up world_down exporter 50 start))).
    intros i. reflexivity.
  - eapply (proj1 (proj2 (proj2 (version_fetch_never_gives_up world_down exporter
                                    50 start)))).
    reflexivity.
  - eapply (proj2 (proj2 (proj2 (version_fetch_never_gives_up world_down exporter
                                    50 start)))).
    reflexivity.
Defined.

End ScenarioFacts.

(* ===================================================================== *)
(** * Configuration values *)
(* ===================================================================== *)

Section ConfigFacts.
Context {RT : Runtime}.
Local Open Scope py_scope.

Lemma rstrip_blank (s : string) : all_space s = true -> rstrip s = EmptyString.
Proof.
  induction s as [|c s IH]; cbn; [reflexivity|].
  intros H. apply andb_true_iff in H as [Hc Hs]. now rewrite (IH Hs), Hc.
Qed.

Lemma rstrip_empty_blank (s : string) : rstrip s = EmptyString -> all_space s = true.
Proof.
  induction s as [|c s IH]; cbn; [reflexivity|].
  destruct (rstrip s) eqn:E; [|discriminate].
  destruct (isspace c); [|discriminate]. intros _. now rewrite IH.
Qed.

Lemma drop_spaces_blank (s : string) :
  all_space s = true -> drop_spaces s = EmptyString.
Proof.
  induction s as [|c s IH]; cbn; [reflexivity|].
  intros H. apply andb_true_iff in H as [Hc Hs]. now rewrite Hc, IH.
Qed.

Lemma drop_spaces_all_space (s : string) :
  all_space s = all_space (drop_spaces s).
Proof.
  induction s as [|c s IH]; cbn; [reflexivity|].
  destruct (isspace c) eqn:Hc; cbn; [exact IH | now rewrite Hc].
Qed.

Lemma drop_spaces_app (a s : string) :
  all_space a = true -> drop_spaces (a ++ s) = drop_spaces s.
Proof.
  induction a as [|c a IH]; cbn; [reflexivity|].
  intros H. apply andb_true_iff in H as [Hc Ha]. now rewrite Hc, IH.
Qed.

Lemma rstrip_app (s b : string) : all_space b = true -> rstrip (s ++ b) = rstrip s.
Proof.
  intros Hb. induction s as [|c s IH]; cbn.
  - now apply rstrip_blank.
  - now rewrite IH.
Qed.

Lemma rstrip_fixed (s : string) (d : ascii) :
  last_char s = Some d -> isspace d = false -> rstrip s = s.
Proof.
  induction s as [|c s IH]; cbn; [discriminate|].
  destruct s as [|c' s'].
  - intros H Hd. inversion H; subst. cbn. now rewrite Hd.
  - intros H Hd. rewrite (IH H Hd). reflexivity.
Qed.

(** What [rstrip] leaves is empty or ends with a character that is not
    whitespace. *)
Lemma rstrip_last (s : string) :
  rstrip s = EmptyString
  \/ exists d, last_char (rstrip s) = Some d /\ isspace d = false.
Proof.
  induction s as [|c s IH]; cbn; [now left|].
  destruct (rstrip s) as [|c' r] eqn:E.
  - destruct (isspace c) eqn:Hc; [now left|].
    right. exists c. split; [reflexivity | exact Hc].
  - right. destruct IH as [H|(d & Hd & Hs)]; [discriminate|].
    exists d. split; [exact Hd | exact Hs].
Qed.

Lemma rstrip_head (c : ascii) (s : string) :
  isspace c = false -> exists r, rstrip (String c s) = String c r.
Proof.
  intros Hc. cbn. destruct (rstrip s); [rewrite Hc|]; eauto.
Qed.

Lemma drop_spaces_head (s : string) :
  drop_spaces s = EmptyString
  \/ exists c r, drop_spaces s = String c r /\ isspace c = false.
Proof.
  induction s as [|c s IH]; cbn; [now left|].
  destruct (isspace c) eqn:Hc; [exact IH|]. right. eauto.
Qed.

Lemma strip_trimmed (s : string) : trimmed (strip s).
Proof.
  unfold strip.
  destruct (drop_spaces_head s) as [->|(c & r & -> & Hc)]; [exact I|].
  destruct (rstrip_head c r Hc) as (r' & Hr).
  pose proof (rstrip_last (String c r)) as Hl. rewrite Hr in *.
  destruct Hl as [Hl|Hl]; [discriminate|].
  split; [exact Hc | exact Hl].
Qed.

Lemma append_empty_r (s : string) : s ++ EmptyString = s.
Proof. induction s as [|c s IH]; cbn; [reflexivity | now rewrite IH]. Qed.

Lemma strip_between (a v b : string) :
  all_space a = true ->
  all_space b = true ->
  trimmed v ->
  strip (a ++ v ++ b) = v.
Proof.
  intros Ha Hb Hv. unfold strip. rewrite (drop_spaces_app _ _ Ha).
  destruct v as [|c v].
  - cbn [append]. rewrite (drop_spaces_blank _ Hb). reflexivity.
  - destruct Hv as [Hc (d & Hd & Hs)].
    cbn [append drop_spaces]. rewrite Hc.
    change (String c (v ++ b)) with (String c v ++ b).
    rewrite (rstrip_app _ _ Hb). exact (rstrip_fixed _ d Hd Hs).
Qed.

Lemma strip_blank_iff (s : string) :
  strip s = EmptyString <-> all_space s = true.
Proof.
  unfold strip. split.
  - intros H. apply rstrip_empty_blank in H.
    now rewrite drop_spaces_all_space.
  - intros H. now rewrite (drop_spaces_blank _ H).
Qed.

(** What [strip] returns neither starts nor ends with whitespace,
    stripping it again changes nothing, and it is empty exactly for the
    strings made of whitespace only. *)
Lemma strip_result (s : string) :
  trimmed (strip s)
  /\ strip (strip s) = strip s
  /\ (strip s = EmptyString <-> all_space s = true).
Proof.
  split; [apply strip_trimmed|]. split; [|apply strip_blank_iff].
  pose proof (strip_between EmptyString (strip s) EmptyString
                eq_refl eq_refl (strip_trimmed s)) as H.
  cbn [append] in H. now rewrite append_empty_r in H.
Qed.

End ConfigFacts.

Section ConfigValueFacts.
Context {RT : Runtime}.
Variable env : environ.
Variable fs : files.
Local Open Scope py_scope.

Lemma get_config_value_run (key default : string) (s : state) :
  get_config_value env fs key default s
    = (match config_value env fs key default with
       | Some v => Returns v
       | None => Raises UnicodeDecodeError
       end,
       appended s (config_log env fs key)).
Proof.
  unfold get_config_value, config_value, config_log.
  destruct (env ("FILE__" ++ key)) as [path|]; [destruct (fs path)|];
    rewrite ?appended_nil; reflexivity.
Qed.

Lemma sleeps_config_log (key : string) : sleeps (config_log env fs key) = [].
Proof.
  unfold config_log.
  destruct (env ("FILE__" ++ key)) as [path|]; [destruct (fs path)|]; reflexivity.
Qed.

Lemma sleeps_config_logs : sleeps (config_logs env fs) = [].
Proof. unfold config_logs. now rewrite !sleeps_app, !sleeps_config_log. Qed.

Lemma bind_config_value {B : Type} (key default : string) (k : string -> M B)
    (s : state) :
  bind (get_config_value env fs key default) k s
    = match config_value env fs key default with
      | Some v => k v (appended s (config_log env fs key))
      | None => (Raises UnicodeDecodeError, appended s (config_log env fs key))
      end.
Proof.
  unfold bind. rewrite get_config_value_run.
  destruct (config_value env fs key default); reflexivity.
Qed.

(** X1.  When [FILE__<key>] names a file that can be read, the value is what
    the file holds without the whitespace around it, whatever the variable
    [<key>] and the default are, and nothing is logged; a file of
    whitespace only gives the empty string, not the default. *)
Theorem secret_file_wins (key default path contents : string) (s : state) :
  env ("FILE__" ++ key) = Some path ->
  fs path = ReadsText contents ->
  get_config_value env fs key default s = (Returns (strip contents), s)
  /\ trimmed (strip contents)
  /\ (all_space contents = true -> strip contents = EmptyString).
Proof.
  intros He Hf. split; [|split].
  - unfold get_config_value. now rewrite He, Hf.
  - apply strip_trimmed.
  - apply strip_blank_iff.
Qed.

(** X3.  A token written to the file [FILE__<key>] names, with whitespace
    before or after it (a trailing newline, say), is the value returned,
    as it was written. *)
Theorem secret_file_round_trip (key default path a v b : string) (s : state) :
  env ("FILE__" ++ key) = Some path ->
  fs path = ReadsText (a ++ v ++ b) ->
  all_space a = true ->
  all_space b = true ->
  trimmed v ->
  get_config_value env fs key default s = (Returns v, s).
Proof.
  intros He Hf Ha Hb Hv. unfold get_config_value. rewrite He, Hf.
  now rewrite (strip_between a v b Ha Hb Hv).
Qed.

(** X2.  [get_config_value] sends no request and never sleeps.  When
    [FILE__<key>] names a file that cannot be opened or read it logs one
    error line and the value is the variable [<key>], or the default when
    that is not set either, as when [FILE__<key>] is not set.  When the
    file is read but is not text, UnicodeDecodeError leaves the function
    and nothing is logged.  These are the only ways not to return the
    content of the file, and the log line is the only trace. *)
Theorem config_value_falls_back (key default : string) (s : state) :
  (forall path,
     env ("FILE__" ++ key) = Some path -> fs path = RaisesIOError ->
     get_config_value env fs key default s
       = (Returns (environ_get env key default),
          logged s (EvLog "error" "Unable to read value for %s from %s: %s")))
  /\ (env ("FILE__" ++ key) = None ->
      get_config_value env fs key default s
        = (Returns (environ_get env key default), s))
  /\ (forall path,
        env ("FILE__" ++ key) = Some path -> fs path = RaisesUnicodeDecodeError ->
        get_config_value env fs key default s = (Raises UnicodeDecodeError, s))
  /\ (forall o s', get_config_value env fs key default s = (o, s') ->
        requests_sent s' = requests_sent s
        /\ sleeps (events s') = sleeps (events s)
        /\ o <> Running
        /\ (forall e, o = Raises e ->
            e = UnicodeDecodeError
            /\ s' = s
            /\ exists path, env ("FILE__" ++ key) = Some path
                            /\ fs path = RaisesUnicodeDecodeError)
        /\ (s' <> s ->
            exists path, env ("FILE__" ++ key) = Some path
                         /\ fs path = RaisesIOError)).
Proof.
  split; [|split; [|split]].
  - intros path He Hf. unfold get_config_value. now rewrite He, Hf.
  - intros He. unfold get_config_value. now rewrite He.
  - intros path He Hf. unfold get_config_value. now rewrite He, Hf.
  - intros o s' H. unfold get_config_value in H.
    destruct (env ("FILE__" ++ key)) as [path|] eqn:He;
      [destruct (fs path) eqn:Hf|]; inversion H; subst; clear H.
    + repeat split; try congruence.
    + repeat split; try discriminate.
      * cbn [events logged]. rewrite sleeps_app. cbn. now rewrite app_nil_r.
      * eauto.
    + repeat split; try congruence; eauto.
    + repeat split; try congruence.
Qed.

End ConfigValueFacts.

(* ===================================================================== *)
(** * The two probes *)
(* ===================================================================== *)

Section ProbeFacts.
Context {RT : Runtime}.
Variable net : network.
Variables host port : string.
Local Open Scope py_scope.

Lemma total_app (l1 l2 : list Z) : total (l1 ++ l2) = total l1 + total l2.
Proof.
  unfold total. induction l1 as [|x l1 IH]; cbn [app fold_right];
    [reflexivity | rewrite IH; lia].
Qed.

Lemma total_repeat (x : Z) (n : nat) : total (repeat x n) = x * Z.of_nat n.
Proof.
  unfold total. induction n as [|n IH]; cbn [repeat fold_right]; [lia|].
  rewrite IH. lia.
Qed.

Lemma total_tiers (k : nat) :
  total (map tiered_backoff (attempts k)) = time_waiting (Z.of_nat k) - 1.
Proof.
  induction k as [|k IH]; [reflexivity|].
  unfold attempts in *. rewrite seq_S, !map_app, total_app, IH.
  cbn [map total fold_right Nat.add].
  unfold tiered_backoff, time_waiting.
  repeat match goal with
         | |- context [?a <=? ?b] => destruct (Z.leb_spec a b)
         end; lia.
Qed.

Lemma check_server_up_loop_requests (k : nat) :
  forall (fuel : nat) (counter : Z) (s s' : state) (doc : pyval),
    (forall i, (i < k)%nat ->
               net (requests_sent s + i)%nat (ping_url host port) = TransportError) ->
    net (requests_sent s + k)%nat (ping_url host port) = Response doc ->
    (k < fuel)%nat ->
    check_server_up_loop net host port fuel counter s = (Returns tt, s') ->
    requests_sent s' = (requests_sent s + k + 1)%nat.
Proof.
  induction k as [|k IH]; intros fuel counter s s' doc Hfail Hok Hfuel;
    (destruct fuel as [|fuel]; [lia|]);
    cbn [check_server_up_loop]; unfold try_except at 1;
    unfold bind at 1, requests_request.
  - rewrite Nat.add_0_r in Hok. rewrite Hok. unfold ret. intros H.
    inversion H; subst. cbn. lia.
  - pose proof (Hfail 0%nat ltac:(lia)) as H0. rewrite Nat.add_0_r in H0.
    rewrite H0. cbn [is_RequestException exn_eqb].
    unfold bind at 1, logger_error, emit. unfold bind at 1.
    unfold sleep_after_failure, time_sleep, emit, ret.
    intros H.
    assert (Hgo : forall s1, requests_sent s1 = S (requests_sent s) ->
                  check_server_up_loop net host port fuel (counter + 1) s1
                    = (Returns tt, s') ->
                  requests_sent s' = (requests_sent s + S k + 1)%nat).
    { intros s1 Hs1 Hrun.
      rewrite (IH fuel (counter + 1) s1 s' doc); try exact Hrun; try lia.
      - intros i Hi. rewrite Hs1.
        replace (S (requests_sent s) + i)%nat with (requests_sent s + S i)%nat by lia.
        apply Hfail. lia.
      - rewrite Hs1.
        replace (S (requests_sent s) + k)%nat with (requests_sent s + S k)%nat by lia.
        exact Hok. }
    repeat match type of H with
           | context [if ?b then _ else _] => destruct b
           end;
      (eapply Hgo; [|exact H]; reflexivity).
Qed.

Lemma check_server_up_loop_spins (fuel : nat) :
  forall (counter : Z) (s : state),
    0 <= counter ->
    (forall i, net (requests_sent s + i)%nat (ping_url host port) = TransportError) ->
    exists s',
      check_server_up_loop net host port fuel counter s = (Running, s')
      /\ requests_sent s' = (requests_sent s + fuel)%nat
      /\ sleeps (events s')
         = (sleeps (events s)
            ++ map tiered_backoff
                 (map (fun j => counter + Z.of_nat j) (seq 1 fuel)))%list.
Proof.
  induction fuel as [|fuel IH]; intros counter s Hc Hfail.
  - exists s. cbn. rewrite app_nil_r. repeat split. lia.
  - set (s2 := logged (logged (logged s (EvRequest (ping_url host port)))
                 (EvLog "error"
                    "CONNECTION ERROR. Cannot reach immich at %s:%s. Is immich up and running?"))
                 (EvSleep (tiered_backoff (counter + 1)))).
    destruct (IH (counter + 1)
                {| requests_sent := S (requests_sent s); events := events s2 |})
      as (s' & Hrun & Hreq & Hsl).
    + lia.
    + intros i. cbn [requests_sent].
      replace (S (requests_sent s) + i)%nat with (requests_sent s + S i)%nat by lia.
      apply Hfail.
    + exists s'. split; [|split].
      * cbn [check_server_up_loop]. unfold try_except at 1.
        unfold bind at 1, requests_request.
        pose proof (Hfail 0%nat) as H0. rewrite Nat.add_0_r in H0.
        rewrite H0. cbn [is_RequestException exn_eqb].
        unfold bind at 1, logger_error, emit.
        unfold bind at 1. rewrite sleep_after_failure_tier by lia.
        exact Hrun.
      * rewrite Hreq. cbn. lia.
      * rewrite Hsl. subst s2. cbn [events logged].
        rewrite !sleeps_app. cbn [sleeps]. rewrite !app_nil_r.
        rewrite <- app_assoc. f_equal.
        cbn [seq map app]. replace (counter + Z.of_nat 1) with (counter + 1) by lia.
        f_equal. rewrite <- (seq_shift fuel 1), !map_map.
        apply map_ext. intros j. f_equal. lia.
Qed.

Lemma check_server_up_run (k fuel : nat) (s : state) (doc : pyval) :
  (forall i, (i < k)%nat ->
             net (requests_sent s + i)%nat (ping_url host port) = TransportError) ->
  net (requests_sent s + k)%nat (ping_url host port) = Response doc ->
  (k < fuel)%nat ->
  exists s',
    check_server_up net host port fuel s = (Returns tt, s')
    /\ requests_sent s' = (requests_sent s + k + 1)%nat
    /\ sleeps (events s')
       = (sleeps (events s) ++ map tiered_backoff (attempts k) ++ [1])%list.
Proof.
  intros Hfail Hok Hfuel.
  destruct (check_server_up_loop_sleeps net host port k fuel 0 s doc
              ltac:(lia) Hfail Hok Hfuel) as (s1 & Hrun & Hsl).
  pose proof (check_server_up_loop_requests k fuel 0 s s1 doc Hfail Hok Hfuel Hrun)
    as Hreq.
  eexists. split; [|split].
  - unfold check_server_up. unfold bind at 1. rewrite Hrun. reflexivity.
  - cbn. exact Hreq.
  - cbn [events logged]. rewrite !sleeps_app, Hsl. cbn [sleeps].
    rewrite !app_nil_r, <- app_assoc. reflexivity.
Qed.

(** X6.  The time the reachability probe has slept when the first [k] pings
    failed and the next one was answered: [k + 1] seconds up to 60
    failures, [15 (k - 60) + 61] up to 300, [60 (k - 300) + 3661] beyond. *)
Theorem check_server_up_time_waited (k fuel : nat) (s : state) (doc : pyval) :
  (forall i, (i < k)%nat ->
             net (requests_sent s + i)%nat (ping_url host port) = TransportError) ->
  net (requests_sent s + k)%nat (ping_url host port) = Response doc ->
  (k < fuel)%nat ->
  exists s',
    check_server_up net host port fuel s = (Returns tt, s')
    /\ requests_sent s' = (requests_sent s + k + 1)%nat
    /\ total (sleeps (events s'))
       = total (sleeps (events s)) + time_waiting (Z.of_nat k).
Proof.
  intros Hfail Hok Hfuel.
  destruct (check_server_up_run k fuel s doc Hfail Hok Hfuel)
    as (s' & Hrun & Hreq & Hsl).
  exists s'. split; [exact Hrun|]. split; [exact Hreq|].
  rewrite Hsl, !total_app, total_tiers.
  change (total [1]) with 1. lia.
Qed.

(** X7.  While no ping is answered the reachability probe never returns: for
    every fuel it is still in its loop, having sent one ping and slept the
    tier of each attempt. *)
Theorem check_server_up_waits_forever (fuel : nat) (s : state) :
  (forall i, net (requests_sent s + i)%nat (ping_url host port) = TransportError) ->
  exists s',
    check_server_up net host port fuel s = (Running, s')
    /\ requests_sent s' = (requests_sent s + fuel)%nat
    /\ sleeps (events s')
       = (sleeps (events s) ++ map tiered_backoff (attempts fuel))%list.
Proof.
  intros Hfail.
  destruct (check_server_up_loop_spins fuel 0 s ltac:(lia) Hfail)
    as (s' & Hrun & Hreq & Hsl).
  exists s'. split; [|split]; auto.
  unfold check_server_up. now apply bind_running.
Qed.

End ProbeFacts.

Section KeyProbeFacts.
Context {RT : Runtime}.
Variable net : network.
Variables host port key : string.
Local Open Scope py_scope.

Lemma sleeps_failed_key_checks (url : string) (k : nat) :
  sleeps (failed_key_checks url k) = repeat 3 k.
Proof. induction k as [|k IH]; cbn; [reflexivity | now rewrite IH]. Qed.

Lemma failed_key_checks_snoc (url : string) (k : nat) (rest : list event) :
  (failed_key_checks url (S k) ++ rest
   = [EvRequest url; EvLog "error" "CONNECTION ERROR. Possible API key error";
      EvLog "error" "{e}"; EvSleep 3] ++ failed_key_checks url k ++ rest)%list.
Proof. reflexivity. Qed.

Lemma check_immich_api_key_run (k : nat) :
  forall (fuel : nat) (s : state) (doc : pyval),
    (forall i, (i < k)%nat ->
               net (requests_sent s + i)%nat (api_url host port) = TransportError) ->
    net (requests_sent s + k)%nat (api_url host port) = Response doc ->
    (k < fuel)%nat ->
    check_immich_api_key net host port key fuel s
      = (Returns tt,
         {| requests_sent := requests_sent s + k + 1;
            events := events s ++ failed_key_checks (api_url host port) k
                      ++ [EvRequest (api_url host port); EvLog "info" "Success."] |}).
Proof.
  induction k as [|k IH]; intros fuel s doc Hfail Hok Hfuel;
    (destruct fuel as [|fuel]; [lia|]);
    cbn [check_immich_api_key]; unfold bind at 1, try_except;
    unfold bind at 1, requests_request.
  - rewrite Nat.add_0_r in Hok. rewrite Hok. unfold ret, logger_info, emit, logged.
    cbn [requests_sent events failed_key_checks app]. f_equal. f_equal; [lia|].
    rewrite <- app_assoc. reflexivity.
  - pose proof (Hfail 0%nat ltac:(lia)) as H0. rewrite Nat.add_0_r in H0.
    rewrite H0. cbn [is_RequestException exn_eqb].
    unfold bind, logger_error, time_sleep, emit, logged, ret.
    cbn [requests_sent events].
    rewrite (IH fuel _ doc).
    + cbn [requests_sent events]. f_equal. f_equal; [lia|].
      rewrite failed_key_checks_snoc, <- !app_assoc. reflexivity.
    + intros i Hi. cbn [requests_sent].
      replace (S (requests_sent s) + i)%nat with (requests_sent s + S i)%nat by lia.
      apply Hfail. lia.
    + cbn [requests_sent].
      replace (S (requests_sent s) + k)%nat with (requests_sent s + S k)%nat by lia.
      exact Hok.
    + lia.
Qed.

Lemma check_immich_api_key_spins (fuel : nat) :
  forall (s : state),
    (forall i, net (requests_sent s + i)%nat (api_url host port) = TransportError) ->
    check_immich_api_key net host port key fuel s
      = (Running,
         {| requests_sent := requests_sent s + fuel;
            events := events s ++ failed_key_checks (api_url host port) fuel |}).
Proof.
  induction fuel as [|fuel IH]; intros s Hfail.
  - cbn [check_immich_api_key failed_key_checks]. unfold running.
    rewrite Nat.add_0_r, app_nil_r. now destruct s.
  - cbn [check_immich_api_key]. unfold bind at 1, try_except.
    unfold bind at 1, requests_request.
    pose proof (Hfail 0%nat) as H0. rewrite Nat.add_0_r in H0.
    rewrite H0. cbn [is_RequestException exn_eqb].
    unfold bind, logger_error, time_sleep, emit, logged, ret.
    cbn [requests_sent events].
    rewrite IH.
    + cbn [requests_sent events]. f_equal. f_equal; [lia|].
      cbn [failed_key_checks]. rewrite <- !app_assoc. reflexivity.
    + intros i. cbn [requests_sent].
      replace (S (requests_sent s) + i)%nat with (requests_sent s + S i)%nat by lia.
      apply Hfail.
Qed.

(** X4.  The key probe ends with the first request that is answered, whatever
    the answer is: the document the upstream sent is not looked at.  After
    each of the [k] failures before it the probe logged two error lines and
    slept three seconds, [3 k] seconds in all. *)
Theorem check_immich_api_key_any_answer (k fuel : nat) (s : state) (doc : pyval) :
  (forall i, (i < k)%nat ->
             net (requests_sent s + i)%nat (api_url host port) = TransportError) ->
  net (requests_sent s + k)%nat (api_url host port) = Response doc ->
  (k < fuel)%nat ->
  exists s',
    check_immich_api_key net host port key fuel s = (Returns tt, s')
    /\ requests_sent s' = (requests_sent s + k + 1)%nat
    /\ events s'
       = (events s ++ failed_key_checks (api_url host port) k
          ++ [EvRequest (api_url host port); EvLog "info" "Success."])%list
    /\ sleeps (events s') = (sleeps (events s) ++ repeat 3 k)%list.
Proof.
  intros Hfail Hok Hfuel. eexists. split; [|split; [|split]].
  - now apply (check_immich_api_key_run k fuel s doc).
  - reflexivity.
  - reflexivity.
  - cbn [events]. rewrite !sleeps_app, sleeps_failed_key_checks.
    cbn [sleeps]. now rewrite app_nil_r.
Qed.

(** X5.  While no request is answered the key probe never returns: for every
    fuel it is still in its loop, having slept three seconds after each
    attempt. *)
Theorem check_immich_api_key_waits_forever (fuel : nat) (s : state) :
  (forall i, net (requests_sent s + i)%nat (api_url host port) = TransportError) ->
  exists s',
    check_immich_api_key net host port key fuel s = (Running, s')
    /\ requests_sent s' = (requests_sent s + fuel)%nat
    /\ sleeps (events s') = (sleeps (events s) ++ repeat 3 fuel)%list.
Proof.
  intros Hfail. eexists. split; [|split].
  - now apply check_immich_api_key_spins.
  - reflexivity.
  - cbn [events]. now rewrite sleeps_app, sleeps_failed_key_checks.
Qed.

End KeyProbeFacts.

(* ===================================================================== *)
(** * [main] *)
(* ===================================================================== *)

Section MainFacts.
Context {RT : Runtime}.
Variable env : environ.
Variable fs : files.
Variable net : network.
Variable int_of_str : string -> option Z.
Local Open Scope py_scope.

Lemma bind_to_int {B : Type} (e : string) (k : Z -> M B) (s : state) :
  bind (to_int int_of_str e) k s
    = match int_of_str e with
      | Some n => k n s
      | None => (Raises ValueError, s)
      end.
Proof. unfold bind, to_int. destruct (int_of_str e); reflexivity. Qed.

Lemma bind_set_level {B : Type} (l : string) (k : unit -> M B) (s : state) :
  bind (set_level l) k s
    = if known_level l then k tt s else (Raises ValueError, s).
Proof. unfold bind, set_level. destruct (known_level l); reflexivity. Qed.

(** [main] with six values read, an integer port and a known level. *)
Lemma main_loads (fuel : nat) (s : state) (h q t e l m : string) (p : Z) :
  config_value env fs "IMMICH_HOST" EmptyString = Some h ->
  config_value env fs "IMMICH_PORT" EmptyString = Some q ->
  config_value env fs "IMMICH_API_TOKEN" EmptyString = Some t ->
  config_value env fs "EXPORTER_PORT" "8000" = Some e ->
  config_value env fs "EXPORTER_LOG_LEVEL" "INFO" = Some l ->
  config_value env fs "METRICS_PREFIX" "immich" = Some m ->
  int_of_str e = Some p ->
  known_level l = true ->
  main env fs net int_of_str fuel s
    = main_checks net
        {| immich_host := h; immich_port := q; token := t;
           exporter_port := p; log_level := l; metrics_prefix := m |}
        fuel (appended s (config_logs env fs)).
Proof.
  intros Hh Hq Ht He Hl Hm Hp Hk. unfold main.
  rewrite bind_config_value, Hh, bind_config_value, Hq, bind_config_value, Ht,
    bind_config_value, He, bind_to_int, Hp, bind_config_value, Hl,
    bind_config_value, Hm.
  cbn [log_level]. rewrite bind_set_level, Hk.
  rewrite !appended_app. unfold config_logs. now rewrite <- ?app_assoc.
Qed.

Lemma main_checks_exit (config : Config) (fuel : nat) (s : state) :
  immich_host config = EmptyString \/ immich_port config = EmptyString
  \/ token config = EmptyString ->
  exists msg, main_checks net config fuel s
              = (Raises (SystemExit 1), logged s (EvLog "error" msg)).
Proof.
  intros H. unfold main_checks.
  destruct (String.eqb_spec (immich_host config) EmptyString) as [Eh|Nh];
    [eexists; reflexivity|].
  destruct (String.eqb_spec (immich_port config) EmptyString) as [Ep|Np];
    [eexists; reflexivity|].
  destruct (String.eqb_spec (token config) EmptyString) as [Et|Nt];
    [eexists; reflexivity|].
  exfalso. tauto.
Qed.

(** X8.  With an empty host, port or token [main] never sends a request,
    whatever the other settings are: it ends with exit status 1, or
    before that with the ValueError of a port that is not an integer or of
    an unknown log level, or with the UnicodeDecodeError of a secret file
    that is not text. *)
Theorem main_needs_connection_settings (fuel : nat) (s s' : state)
    (o : outcome unit) :
  config_value env fs "IMMICH_HOST" EmptyString = Some EmptyString
  \/ config_value env fs "IMMICH_PORT" EmptyString = Some EmptyString
  \/ config_value env fs "IMMICH_API_TOKEN" EmptyString = Some EmptyString ->
  main env fs net int_of_str fuel s = (o, s') ->
  requests_sent s' = requests_sent s
  /\ (o = Raises (SystemExit 1) \/ o = Raises ValueError
      \/ o = Raises UnicodeDecodeError).
Proof.
  intros H. unfold main.
  rewrite bind_config_value.
  destruct (config_value env fs "IMMICH_HOST" EmptyString) as [h|] eqn:Hh;
    [|intros E; inversion E; auto].
  rewrite bind_config_value.
  destruct (config_value env fs "IMMICH_PORT" EmptyString) as [q|] eqn:Hq;
    [|intros E; inversion E; auto].
  rewrite bind_config_value.
  destruct (config_value env fs "IMMICH_API_TOKEN" EmptyString) as [t|] eqn:Ht;
    [|intros E; inversion E; auto].
  rewrite bind_config_value.
  destruct (config_value env fs "EXPORTER_PORT" "8000") as [e|];
    [|intros E; inversion E; auto].
  rewrite bind_to_int.
  destruct (int_of_str e) as [p|]; [|intros E; inversion E; auto].
  rewrite bind_config_value.
  destruct (config_value env fs "EXPORTER_LOG_LEVEL" "INFO") as [l|];
    [|intros E; inversion E; auto].
  rewrite bind_config_value.
  destruct (config_value env fs "METRICS_PREFIX" "immich") as [m|];
    [|intros E; inversion E; auto].
  cbn [log_level]. rewrite bind_set_level.
  destruct (known_level l); [|intros E; inversion E; auto].
  match goal with
  | |- main_checks net ?c fuel ?s0 = _ -> _ =>
      destruct (main_checks_exit c fuel s0) as (msg & ->)
  end.
  - cbn [immich_host immich_port token].
    destruct H as [H|[H|H]]; inversion H; auto.
  - intros E; inversion E; auto.
Qed.


(** X10.  With the six values read, the three settings present, an integer
    port and a known level, [main] goes through the two probes in turn:
    when the first [k1] pings fail and the next is answered, and then the
    first [k2] requests of the key probe fail and the next is answered,
    it comes out of the probes after [k1 + k2 + 2] requests, having slept
    the backoff of the first probe and three seconds per failure of the
    second. *)
Theorem main_passes_the_probes (fuel k1 k2 : nat) (s : state)
    (h q t e l m : string) (p : Z) (d1 d2 : pyval) :
  config_value env fs "IMMICH_HOST" EmptyString = Some h ->
  config_value env fs "IMMICH_PORT" EmptyString = Some q ->
  config_value env fs "IMMICH_API_TOKEN" EmptyString = Some t ->
  config_value env fs "EXPORTER_PORT" "8000" = Some e ->
  config_value env fs "EXPORTER_LOG_LEVEL" "INFO" = Some l ->
  config_value env fs "METRICS_PREFIX" "immich" = Some m ->
  int_of_str e = Some p ->
  known_level l = true ->
  h <> EmptyString -> q <> EmptyString -> t <> EmptyString ->
  (forall i, (i < k1)%nat ->
             net (requests_sent s + i)%nat (ping_url h q) = TransportError) ->
  net (requests_sent s + k1)%nat (ping_url h q) = Response d1 ->
  (forall j, (j < k2)%nat ->
             net (requests_sent s + k1 + 1 + j)%nat (api_url h q) = TransportError) ->
  net (requests_sent s + k1 + 1 + k2)%nat (api_url h q) = Response d2 ->
  (k1 < fuel)%nat -> (k2 < fuel)%nat ->
  exists s',
    main env fs net int_of_str fuel s = (Returns tt, s')
    /\ requests_sent s' = (requests_sent s + k1 + k2 + 2)%nat
    /\ total (sleeps (events s'))
       = total (sleeps (events s)) + time_waiting (Z.of_nat k1) + 3 * Z.of_nat k2.
Proof.
  intros Hh Hq Ht He Hl Hm Hp Hk Nh Nq Nt Hf1 Ho1 Hf2 Ho2 Hk1 Hk2.
  rewrite (main_loads fuel s h q t e l m p Hh Hq Ht He Hl Hm Hp Hk).
  unfold main_checks. cbn [immich_host immich_port token].
  apply String.eqb_neq in Nh, Nq, Nt. rewrite Nh, Nq, Nt.
  set (s2 := appended s (config_logs env fs)).
  assert (R2 : requests_sent s2 = requests_sent s) by reflexivity.
  assert (S2 : sleeps (events s2) = sleeps (events s)).
  { cbn [s2 appended events]. rewrite sleeps_app, sleeps_config_logs.
    now rewrite app_nil_r. }
  set (s3 := logged s2 (EvLog "info" "Exporter is starting up")).
  destruct (check_server_up_run net h q k1 fuel s3 d1) as (s4 & Hrun & R4 & L4).
  { intros i Hi. cbn [s3 logged requests_sent]. rewrite R2. now apply Hf1. }
  { cbn [s3 logged requests_sent]. rewrite R2. exact Ho1. }
  { exact Hk1. }
  assert (T4 : total (sleeps (events s4))
               = total (sleeps (events s3)) + time_waiting (Z.of_nat k1)).
  { rewrite L4, !total_app, total_tiers. change (total [1]) with 1. lia. }
  pose proof (check_immich_api_key_run net h q t k2 fuel s4 d2) as Hkey.
  cbn [s3 logged requests_sent] in R4. rewrite R2 in R4.
  rewrite R4 in Hkey.
  specialize (Hkey Hf2 Ho2 Hk2).
  eexists. split; [|split].
  - unfold bind, ret, logger_info, emit. fold s3. rewrite Hrun. rewrite Hkey.
    reflexivity.
  - cbn [requests_sent]. lia.
  - cbn [events]. rewrite !sleeps_app, sleeps_failed_key_checks. cbn [sleeps].
    rewrite app_nil_r, total_app, total_repeat, T4.
    cbn [s3 logged events]. rewrite sleeps_app. cbn [sleeps].
    rewrite app_nil_r, S2. lia.
Qed.

End MainFacts.

(* ===================================================================== *)
(** * More on the signal handler *)
(* ===================================================================== *)

Section SignalFacts.
Local Open Scope py_scope.

Lemma idle_loop_outcome (arrivals : nat -> bool) (fuel : nat) :
  forall (turn : nat) (s : state),
    (idle_loop arrivals turn fuel SignalHandler_init s
       = (Running, appended s (repeat (EvSleep 1) fuel))
     /\ forall i, (turn <= i < turn + fuel)%nat -> arrivals i = false)
    \/ (exists n, (n < fuel)%nat
                  /\ arrivals (turn + n)%nat = true
                  /\ idle_loop arrivals turn fuel SignalHandler_init s
                     = (Raises TypeError,
                        appended s (repeat (EvSleep 1) (S n)))).
Proof.
  induction fuel as [|fuel IH]; intros turn s.
  - left. split; [|intros i Hi; lia].
    cbn [idle_loop repeat]. now rewrite appended_nil.
  - destruct (arrivals turn) eqn:Ha.
    + right. exists 0%nat. split; [lia|]. rewrite Nat.add_0_r. split; [exact Ha|].
      now apply idle_loop_signal.
    + assert (Hstep : idle_loop arrivals turn (S fuel) SignalHandler_init s
                      = idle_loop arrivals (S turn) fuel SignalHandler_init
                          (appended s [EvSleep 1])).
      { cbn [idle_loop]. change (is_shutting_down SignalHandler_init) with false.
        cbv iota. unfold bind at 1. cbn [time_sleep emit]. rewrite Ha.
        reflexivity. }
      rewrite Hstep.
      destruct (IH (S turn) (appended s [EvSleep 1])) as [[Hr Hq]|(n & Hn & Hs & Hr)].
      * left. split.
        -- rewrite Hr, appended_app. reflexivity.
        -- intros i Hi. destruct (Nat.eq_dec i turn) as [->|Ne]; [exact Ha|].
           apply Hq. lia.
      * right. exists (S n). split; [lia|]. split.
        -- now rewrite Nat.add_succ_r.
        -- rewrite Hr, appended_app. reflexivity.
Qed.

(** X11.  The loop that ends [main] never ends by returning, and "Exporter
    has shutdown" is never logged: the loop sleeps one second a turn as
    long as no signal arrives, and the first signal ends it with
    TypeError.  The trace of a run is the sleeps of its turns. *)
Theorem graceful_shutdown_unreachable (arrivals : nat -> bool) (fuel : nat)
    (s s' : state) (o : outcome unit) :
  main_idle arrivals fuel SignalHandler_init s = (o, s') ->
  exists n,
    s' = appended s (repeat (EvSleep 1) n)
    /\ ((o = Running /\ n = fuel
         /\ forall i, (i < fuel)%nat -> arrivals i = false)
        \/ (o = Raises TypeError /\ (0 < n <= fuel)%nat
            /\ arrivals (n - 1)%nat = true)).
Proof.
  unfold main_idle. intros H.
  destruct (idle_loop_outcome arrivals fuel 0 s) as [[Hr Hq]|(n & Hn & Ha & Hr)].
  - rewrite (bind_running _ _ _ _ Hr) in H. inversion H; subst.
    exists fuel. split; [reflexivity|]. left. repeat split.
    intros i Hi. apply Hq. lia.
  - rewrite (bind_raises _ _ _ _ _ Hr) in H. inversion H; subst.
    exists (S n). split; [reflexivity|]. right. repeat split; try lia.
    cbn [Nat.add] in Ha. now replace (S n - 1)%nat with n by lia.
Qed.

End SignalFacts.

(* ===================================================================== *)
(** * More on the user statistics *)
(* ===================================================================== *)

Section MoreUsersFacts.
Context {RT : Runtime}.
Variable w : world.
Variable self : ImmichMetricsCollector.
Local Open Scope py_scope.

Ltac bind_inv H :=
  repeat (cbv beta zeta in H;
          let a := fresh "a" in
          let s := fresh "s" in
          let Ha := fresh "Ha" in
          let H' := fresh "H" in
          destruct (bind_returns _ _ _ _ _ H) as (a & s & Ha & H');
          clear H; rename H' into H);
  cbv beta zeta in H.

(** X13.  When the request to [/statistics] fails in a cycle in which the
    version and the storage records were obtained, the error is logged and
    [collect] ends with UnboundLocalError: the records already built are
    lost with it. *)
Theorem statistics_failure_aborts_cycle (fuel : nat) (s s1 s2 : state)
    (ms1 ms2 : list metric) :
  get_immich_server_version_number w self fuel (entered s) = (Returns ms1, s1) ->
  get_immich_storage w self s1 = (Returns ms2, s2) ->
  upstream w (requests_sent s2) (combine_url self "/statistics") = TransportError ->
  collect w self fuel s
    = (Raises UnboundLocalError,
       logged (requested self s2 "/statistics")
         (EvLog "error" "API ERROR: can't get server statistic: %s")).
Proof.
  intros Hv Hs Hup. apply collect_raises.
  eapply users_stat_raises; [exact Hv | exact Hs |].
  now apply users_stat_transport_error.
Qed.

(** One turn of the loop on an entry whose name has no token. *)
Lemma users_stat_body_blank_name (user_data : pyval) (x : nat)
    (d : list (string * pyval)) (n : string) (p v u a b c : Z) (ms : list metric) :
  getindex user_data x = Ok (PDict d) ->
  lookup "photos" d = Some (PInt p) ->
  lookup "videos" d = Some (PInt v) ->
  lookup "usage" d = Some (PInt u) ->
  lookup "userName" d = Some (PStr n) ->
  all_space n = true ->
  users_stat_body self user_data x
    {| photos_growth_total := PInt a; videos_growth_total := PInt b;
       usage_growth_total := PInt c; metrics := ms |}
  = Err IndexError.
Proof.
  intros Hget Hp Hv Hu Hn Hblank.
  unfold users_stat_body, user_metric, user_first_name, user_field.
  rewrite Hget. cbn [rbind getitem].
  rewrite Hp, Hv, Hu, Hn. cbn [rbind py_add photos_growth_total
    videos_growth_total usage_growth_total split_first].
  pose proof (split_first_token n) as Hsplit.
  destruct (split n) as [|t ts]; [reflexivity|].
  destruct Hsplit as [Ht Hne]. exfalso. apply Hne. rewrite Ht.
  unfold first_token. rewrite (drop_spaces_blank _ Hblank). reflexivity.
Qed.

(** X14.  A user whose [userName] is empty or made of whitespace only, in an
    otherwise valid statistics response, makes the transformer raise
    IndexError, and [collect] with it: the cycle gives no record. *)
Theorem blank_user_name_aborts_cycle (fuel : nat) (s s1 s2 : state)
    (ms1 ms2 : list metric) (doc : list (string * pyval))
    (before after : list pyval) (us : list UserUsage)
    (d : list (string * pyval)) (n : string) (p v u : Z) :
  get_immich_server_version_number w self fuel (entered s) = (Returns ms1, s1) ->
  get_immich_storage w self s1 = (Returns ms2, s2) ->
  upstream w (requests_sent s2) (combine_url self "/statistics")
    = Response (PDict doc) ->
  lookup "usageByUser" doc = Some (PList (before ++ PDict d :: after)) ->
  as_users before = Some us ->
  lookup "photos" d = Some (PInt p) ->
  lookup "videos" d = Some (PInt v) ->
  lookup "usage" d = Some (PInt u) ->
  lookup "userName" d = Some (PStr n) ->
  all_space n = true ->
  get_immich_users_stat w self s2
    = (Raises IndexError, requested self s2 "/statistics")
  /\ collect w self fuel s = (Raises IndexError, requested self s2 "/statistics").
Proof.
  intros Hver Hsto Hup Hl Hus Hp Hv Hu Hn Hblank.
  assert (Hrun : get_immich_users_stat w self s2
                 = (Raises IndexError, requested self s2 "/statistics")).
  { unfold get_immich_users_stat, try_except, request, requests_request, bind.
    rewrite Hup. cbv [ret read_local getitem lift].
    rewrite Hl. cbv [py_len ret lift].
    rewrite length_app. cbn [List.length].
    rewrite seq_app, for_each_app.
    pose proof (users_loop_valid self before [] (PDict d :: after) us 0 0 0 [] Hus)
      as Hloop.
    cbn [List.length app] in Hloop. rewrite Hloop. cbn [rbind seq for_each].
    rewrite (users_stat_body_blank_name _ _ d n p v u); auto.
    cbn [getindex Nat.add]. rewrite nth_error_app2 by lia.
    rewrite Nat.sub_diag. reflexivity. }
  split; [exact Hrun|].
  apply collect_raises. eapply users_stat_raises; eassumption.
Qed.

(** X15.  With no user at all (an empty array, and an empty object or an empty
    string just as well, since only the length is looked at) the
    transformer returns the four aggregate records alone, all of them 0. *)
Theorem no_users_only_aggregates (s : state) (doc v : pyval) :
  upstream w (requests_sent s) (combine_url self "/statistics") = Response doc ->
  getitem doc "usageByUser" = Ok v ->
  py_len v = Ok 0%nat ->
  exists ms,
    get_immich_users_stat w self s = (Returns ms, requested self s "/statistics")
    /\ map shown ms
       = [ (metrics_prefix (config self) ++ "_server_stats_user_count", PInt 0,
            [], "gauge");
           (metrics_prefix (config self) ++ "_server_stats_photos_growth", PInt 0,
            [], "gauge");
           (metrics_prefix (config self) ++ "_server_stats_videos_growth", PInt 0,
            [], "gauge");
           (metrics_prefix (config self) ++ "_server_stats_usage_growth", PInt 0,
            [], "gauge") ].
Proof.
  intros Hup Hv Hlen. eexists. split.
  - unfold get_immich_users_stat, try_except, request, requests_request, bind.
    rewrite Hup. cbv [ret read_local lift].
    rewrite Hv. cbv [ret lift]. rewrite Hlen. reflexivity.
  - reflexivity.
Qed.

Lemma has_space_take_word (s : string) : has_space (take_word s) = false.
Proof.
  induction s as [|c s IH]; cbn; [reflexivity|].
  destruct (isspace c) eqn:Hc; cbn; [reflexivity | now rewrite Hc, IH].
Qed.

Lemma split_first_token_like (v : pyval) (t : string) :
  split_first v = Ok t -> t <> EmptyString /\ has_space t = false.
Proof.
  destruct v as [| | | |n| |]; try discriminate. cbn.
  pose proof (split_first_token n) as H.
  destruct (split n) as [|t' ts]; [discriminate|].
  intros E. inversion E; subst. destruct H as [Ht Hne]. split; [exact Hne|].
  rewrite Ht. apply has_space_take_word.
Qed.

Lemma user_metric_token (user_data : pyval) (x : nat) (suffix key : string)
    (m : metric) :
  user_metric self user_data x suffix key = Ok m -> token_labels m.
Proof.
  unfold user_metric. intros H.
  destruct (rbind_ok _ _ _ H) as (v & _ & H1).
  destruct (rbind_ok _ _ _ H1) as (l & Hl & H2).
  destruct (rbind_ok _ _ _ H2) as (l' & _ & H3).
  inversion H3; subst; clear H3.
  unfold user_first_name in Hl.
  destruct (rbind_ok _ _ _ Hl) as (n & _ & Hn).
  apply split_first_token_like in Hn.
  intros k t [E|[]]. inversion E; subst. exact Hn.
Qed.

Lemma users_stat_body_token (user_data : pyval) (x : nat) (l l' : users_locals) :
  users_stat_body self user_data x l = Ok l' ->
  Forall token_labels (metrics l) -> Forall token_labels (metrics l').
Proof.
  unfold users_stat_body. intros H Hl.
  repeat match type of H with
         | rbind (user_metric _ _ _ _ _) _ = Ok _ => fail 1
         | rbind _ _ = Ok _ =>
             let H' := fresh "H" in
             destruct (rbind_ok _ _ _ H) as (? & _ & H'); clear H; rename H' into H
         end.
  destruct (rbind_ok _ _ _ H) as (m1 & Hm1 & H1).
  destruct (rbind_ok _ _ _ H1) as (m2 & Hm2 & H2).
  destruct (rbind_ok _ _ _ H2) as (m3 & Hm3 & H3).
  inversion H3; subst; clear H3. cbn [metrics].
  apply user_metric_token in Hm1, Hm2, Hm3.
  apply Forall_app. split; [exact Hl|].
  repeat (apply Forall_cons; [assumption|]). apply Forall_nil.
Qed.

(** X16.  Whatever the statistics response is, every label value of a record
    the transformer returns is a token: it is not empty and holds no
    whitespace. *)
Theorem first_name_labels_are_tokens (s s' : state) (ms : list metric) :
  get_immich_users_stat w self s = (Returns ms, s') ->
  forall m k v, In m ms -> In (k, v) (get_labels m) ->
                v <> EmptyString /\ has_space v = false.
Proof.
  unfold get_immich_users_stat. intros H. bind_inv H.
  apply lift_returns in Ha2 as [Hloop _].
  inversion H; subst; clear H.
  assert (Hall : Forall token_labels
                   (metrics a2 ++
                    [ {| name := metrics_prefix (config self) ++ "_server_stats_user_count";
                         value := PInt (Z.of_nat a1);
                         help := "number of users on the immich server";
                         labels := None; type := None |};
                      {| name := metrics_prefix (config self) ++ "_server_stats_photos_growth";
                         value := photos_growth_total a2;
                         help := "photos counter that is added or removed";
                         labels := None; type := None |};
                      {| name := metrics_prefix (config self) ++ "_server_stats_videos_growth";
                         value := videos_growth_total a2;
                         help := "videos counter that is added or removed";
                         labels := None; type := None |};
                      {| name := metrics_prefix (config self) ++ "_server_stats_usage_growth";
                         value := usage_growth_total a2;
                         help := "videos counter that is added or removed";
                         labels := None; type := None |} ])%list).
  { apply Forall_app. split.
    - eapply (for_each_invariant (fun l => Forall token_labels (metrics l)));
        [| exact Hloop | apply Forall_nil].
      intros x acc acc'. apply users_stat_body_token.
    - repeat (apply Forall_cons; [intros k v []|]). apply Forall_nil. }
  rewrite Forall_forall in Hall.
  intros m k v Hm Hk. exact (Hall m Hm k v Hk).
Qed.

End MoreUsersFacts.

(* ===================================================================== *)
(** * What [collect] yields *)
(* ===================================================================== *)

Section FamilyFacts.
Context {RT : Runtime}.
Variable w : world.
Variable self : ImmichMetricsCollector.
Local Open Scope py_scope.

Ltac bind_inv H :=
  repeat (cbv beta zeta in H;
          let a := fresh "a" in
          let s := fresh "s" in
          let Ha := fresh "Ha" in
          let H' := fresh "H" in
          destruct (bind_returns _ _ _ _ _ H) as (a & s & Ha & H');
          clear H; rename H' into H);
  cbv beta zeta in H.

Ltac untyped :=
  repeat (apply Forall_cons; [reflexivity|]); try apply Forall_nil.

Lemma user_metric_untyped (user_data : pyval) (x : nat) (suffix key : string)
    (m : metric) :
  user_metric self user_data x suffix key = Ok m -> type m = None.
Proof.
  unfold user_metric. intros H.
  destruct (rbind_ok _ _ _ H) as (v & _ & H1).
  destruct (rbind_ok _ _ _ H1) as (l & _ & H2).
  destruct (rbind_ok _ _ _ H2) as (l' & _ & H3).
  now inversion H3.
Qed.

Lemma users_stat_body_untyped (user_data : pyval) (x : nat) (l l' : users_locals) :
  users_stat_body self user_data x l = Ok l' ->
  Forall (fun m => type m = None) (metrics l) ->
  Forall (fun m => type m = None) (metrics l').
Proof.
  unfold users_stat_body. intros H Hl.
  repeat match type of H with
         | rbind (user_metric _ _ _ _ _) _ = Ok _ => fail 1
         | rbind _ _ = Ok _ =>
             let H' := fresh "H" in
             destruct (rbind_ok _ _ _ H) as (? & _ & H'); clear H; rename H' into H
         end.
  destruct (rbind_ok _ _ _ H) as (m1 & Hm1 & H1).
  destruct (rbind_ok _ _ _ H1) as (m2 & Hm2 & H2).
  destruct (rbind_ok _ _ _ H2) as (m3 & Hm3 & H3).
  inversion H3; subst; clear H3. cbn [metrics].
  apply user_metric_untyped in Hm1, Hm2, Hm3.
  apply Forall_app. split; [exact Hl|].
  repeat (apply Forall_cons; [assumption|]). apply Forall_nil.
Qed.

Lemma version_untyped (fuel : nat) (s s' : state) (ms : list metric) :
  get_immich_server_version_number w self fuel s = (Returns ms, s') ->
  Forall (fun m => type m = None) ms.
Proof.
  unfold get_immich_server_version_number. intros H. bind_inv H.
  inversion H; subst. untyped.
Qed.

Lemma storage_untyped (s s' : state) (ms : list metric) :
  get_immich_storage w self s = (Returns ms, s') ->
  Forall (fun m => type m = None) ms.
Proof.
  unfold get_immich_storage. intros H. bind_inv H.
  inversion H; subst. untyped.
Qed.

Lemma users_stat_untyped (s s' : state) (ms : list metric) :
  get_immich_users_stat w self s = (Returns ms, s') ->
  Forall (fun m => type m = None) ms.
Proof.
  unfold get_immich_users_stat. intros H. bind_inv H.
  apply lift_returns in Ha2 as [Hloop _].
  inversion H; subst. apply Forall_app. split; [|untyped].
  eapply (for_each_invariant
            (fun l => Forall (fun m => type m = None) (metrics l)));
    [| exact Hloop | apply Forall_nil].
  intros x acc acc'. apply users_stat_body_untyped.
Qed.

Lemma system_untyped (s s' : state) (ms : list metric) :
  get_system_stats w self s = (Returns ms, s') ->
  Forall (fun m => type m = None) ms.
Proof.
  unfold get_system_stats.
  destruct (load_avg (host w)) as [[l1 l5] l15].
  destruct (virtual_mem (host w)) as [[[[v0 v1] v2] v3] v4].
  intros H. inversion H; subst. untyped.
Qed.

Lemma metrics_untyped (fuel : nat) (s s' : state) (ms : list metric) :
  get_immich_metrics w self fuel s = (Returns ms, s') ->
  Forall (fun m => type m = None) ms.
Proof.
  unfold get_immich_metrics. intros H. bind_inv H.
  inversion H; subst; clear H.
  apply version_untyped in Ha. apply storage_untyped in Ha0.
  apply users_stat_untyped in Ha1. apply system_untyped in Ha2.
  repeat (apply Forall_app; split); auto.
Qed.

Lemma yield_all_run (ms : list metric) :
  forall s,
    yield_all ms s
    = (Returns (map to_family ms),
       {| requests_sent := requests_sent s;
          events := events s ++ map (fun m => EvLog "debug" (name m)) ms |}).
Proof.
  induction ms as [|m ms IH]; intros s; cbn [yield_all map].
  - unfold ret. rewrite app_nil_r. now destruct s.
  - unfold bind at 1, logger_debug, emit. unfold bind. rewrite IH.
    unfold ret, logged. cbn [requests_sent events to_family family_name].
    rewrite <- app_assoc. reflexivity.
Qed.

(** X17.  Whenever [collect] returns, it yields one family per record of
    [get_immich_metrics], in the same order, after one debug line each;
    every family is a [GaugeMetricFamily], never a counter, and holds a
    single sample with as many label values as the family has label
    names. *)
Theorem collect_yields_gauges (fuel : nat) (s s' : state) (fams : list MetricFamily) :
  collect w self fuel s = (Returns fams, s') ->
  exists ms s1,
    get_immich_metrics w self fuel (entered s) = (Returns ms, s1)
    /\ fams = map to_family ms
    /\ events s' = (events s1 ++ map (fun m => EvLog "debug" (name m)) ms)%list
    /\ Forall (fun f => family_class f = "GaugeMetricFamily"
                        /\ exists vals v, samples f = [(vals, v)]
                             /\ List.length vals = List.length (labelnames f))
         fams.
Proof.
  intros H. unfold collect in H. bind_inv H.
  unfold logger_info, emit in Ha. inversion Ha; subst; clear Ha.
  rewrite yield_all_run in H. inversion H; subst; clear H.
  exists a0, s1. fold (entered s) in Ha0.
  split; [exact Ha0|]. split; [reflexivity|]. split; [reflexivity|].
  apply metrics_untyped in Ha0.
  apply Forall_map. eapply Forall_impl; [|exact Ha0].
  intros m Hm. unfold to_family, get_type. rewrite Hm. cbn.
  split; [reflexivity|]. eexists. eexists. split; [reflexivity|].
  now rewrite !length_map.
Qed.

End FamilyFacts.

(* ===================================================================== *)
(** * The series of a cycle *)
(* ===================================================================== *)

Section SeriesFacts.

Lemma with_prefix_injective (prefix : string) (x y : string * list (string * string)) :
  with_prefix prefix x = with_prefix prefix y -> x = y.
Proof.
  destruct x as [a la], y as [b lb]. unfold with_prefix. cbn.
  intros H. inversion H as [[Hn Hl]]. apply append_cancel_l in Hn. now subst.
Qed.

Lemma NoDup_with_prefix (prefix : string) (l : list (string * list (string * string))) :
  NoDup (map (with_prefix prefix) l) <-> NoDup l.
Proof.
  split.
  - apply NoDup_map_inv.
  - induction 1 as [|x l Hx Hl IH]; cbn; constructor; [|exact IH].
    rewrite in_map_iff. intros (y & E & Hy).
    apply with_prefix_injective in E. now subst.
Qed.

Lemma NoDup_app_names {A B : Type} (f : A -> B) (l1 l2 : list A) :
  NoDup l1 -> NoDup l2 ->
  (forall a b, In a (map f l1) -> In b (map f l2) -> a <> b) ->
  NoDup (l1 ++ l2).
Proof.
  intros H1 H2 Hd. apply NoDup_app; auto.
  intros a Ha Hb. apply (Hd (f a) (f a)); auto using in_map.
Qed.

Lemma in_user_series (x : string * list (string * string)) (fns : list string) :
  In x (flat_map user_series fns) ->
  exists n, In n fns /\ In x (user_series n).
Proof. rewrite in_flat_map. intros (n & Hn & Hx). eauto. Qed.

Lemma user_series_names (fns : list string) (a : string) :
  In a (map fst (flat_map user_series fns)) ->
  In a ["_server_stats_photos_by_users"; "_server_stats_videos_by_users";
        "_server_stats_usage_by_users"].
Proof.
  rewrite in_map_iff. intros (x & <- & Hx).
  apply in_user_series in Hx as (n & _ & Hx).
  cbn in Hx. cbn. intuition (subst; auto).
Qed.

Lemma NoDup_user_series (fns : list string) :
  NoDup (flat_map user_series fns) <-> NoDup fns.
Proof.
  induction fns as [|n fns IH]; cbn [flat_map].
  - split; constructor.
  - split.
    + intros H. constructor.
      * intros Hin. apply NoDup_app_remove_l in H as H'.
        assert (Hdup : In ("_server_stats_photos_by_users", [("firstName", n)])
                         (flat_map user_series fns)).
        { apply in_flat_map. exists n. split; [exact Hin | now left]. }
        cbn [user_series app] in H. inversion H as [|x l Hx _]; subst.
        apply Hx. right. right. exact Hdup.
      * apply IH. now apply NoDup_app_remove_l in H.
    + intros H. inversion H as [|x l Hx Hl]; subst.
      apply NoDup_app.
      * repeat (constructor; [cbn; intuition discriminate|]). constructor.
      * now apply IH.
      * intros a Ha Hb. apply in_user_series in Hb as (m & Hm & Hb).
        assert (m = n); [|now subst].
        cbn in Ha, Hb. intuition (subst; congruence).
Qed.

Ltac distinct_names :=
  intros a b Ha Hb;
  rewrite ?map_app, ?in_app_iff in Ha;
  rewrite ?map_app, ?in_app_iff in Hb;
  repeat match goal with
         | H : _ \/ _ |- _ => destruct H
         end;
  repeat match goal with
         | H : In _ (map fst (flat_map user_series _)) |- _ =>
             apply user_series_names in H
         end;
  cbn in *; intuition (subst; discriminate).

Ltac distinct_series :=
  repeat (constructor; [cbn; intuition discriminate|]); constructor.

(** The series of a cycle are pairwise different exactly when the first
    names are. *)
Lemma NoDup_cycle_series (version : string) (fns : list string) :
  NoDup (cycle_series version fns) <-> NoDup fns.
Proof.
  unfold cycle_series. split.
  - intros H. apply NoDup_app_remove_l in H.
    apply NoDup_app_remove_l in H. apply NoDup_app_remove_r in H.
    now apply NoDup_user_series.
  - intros H. apply (NoDup_app_names fst); [distinct_series| |distinct_names].
    apply (NoDup_app_names fst); [distinct_series| |distinct_names].
    apply (NoDup_app_names fst); [now apply NoDup_user_series| |distinct_names].
    apply (NoDup_app_names fst); [distinct_series|distinct_series|distinct_names].
Qed.

End SeriesFacts.

(* ===================================================================== *)
(** * A cycle in which every endpoint answers with a valid document *)
(* ===================================================================== *)

Section HealthyCycle.
Context {RT : Runtime}.
Variable w : world.
Variable self : ImmichMetricsCollector.
Local Open Scope py_scope.

Lemma version_run (fuel : nat) (s s' : state) (doc major minor patch : pyval) :
  fetch_server_version w self fuel s = (Returns doc, s') ->
  getitem doc "major" = Ok major ->
  getitem doc "minor" = Ok minor ->
  getitem doc "patch" = Ok patch ->
  exists m,
    get_immich_server_version_number w self fuel s = (Returns [m], s')
    /\ series m
       = with_prefix (metrics_prefix (config self))
           ("_server_info_version_number",
            [("version", py_str major ++ "." ++ py_str minor ++ "." ++ py_str patch)]).
Proof.
  intros Hf Hmaj Hmin Hpat. eexists. split.
  - unfold get_immich_server_version_number.
    rewrite (bind_step _ _ _ _ _ Hf).
    rewrite Hmaj, Hmin, Hpat. cbn [lift]. unfold bind, ret. reflexivity.
  - reflexivity.
Qed.

Lemma storage_run (s : state) (doc a b c d : pyval) :
  upstream w (requests_sent s) (combine_url self "/storage") = Response doc ->
  getitem doc "diskAvailableRaw" = Ok a ->
  getitem doc "diskSizeRaw" = Ok b ->
  getitem doc "diskUseRaw" = Ok c ->
  getitem doc "diskUsagePercentage" = Ok d ->
  exists ms,
    get_immich_storage w self s = (Returns ms, requested self s "/storage")
    /\ map series ms = map (with_prefix (metrics_prefix (config self))) storage_series.
Proof.
  intros Hup H1 H2 H3 H4. eexists. split.
  - unfold get_immich_storage, try_except, request, requests_request, bind.
    rewrite Hup. cbn [ret read_local]. unfold ret.
    rewrite H1, H2, H3, H4. cbn [lift]. unfold ret. reflexivity.
  - reflexivity.
Qed.

Lemma system_run (s : state) :
  exists ms,
    get_system_stats w self s = (Returns ms, s)
    /\ map series ms = map (with_prefix (metrics_prefix (config self))) system_series.
Proof.
  unfold get_system_stats.
  destruct (load_avg (host w)) as [[l1 l5] l15].
  destruct (virtual_mem (host w)) as [[[[v0 v1] v2] v3] v4].
  eexists. split; reflexivity.
Qed.

Lemma series_user_dicts (prefix : string) (us : list UserUsage) :
  map series (flat_map (user_dicts prefix) us)
  = map (with_prefix prefix) (flat_map user_series (first_names us)).
Proof.
  induction us as [|u us IH]; [reflexivity|].
  cbn [flat_map first_names map]. rewrite !map_app, IH. reflexivity.
Qed.

Variable fuel : nat.
Variables s s1 : state.
Variables version_doc' storage_doc' statistics_doc' : pyval.
Variables major minor patch available size used percentage : pyval.
Variable us : list UserUsage.

Hypothesis version_answered :
  fetch_server_version w self fuel s = (Returns version_doc', s1).
Hypothesis has_major : getitem version_doc' "major" = Ok major.
Hypothesis has_minor : getitem version_doc' "minor" = Ok minor.
Hypothesis has_patch : getitem version_doc' "patch" = Ok patch.
Hypothesis storage_answered :
  upstream w (requests_sent s1) (combine_url self "/storage") = Response storage_doc'.
Hypothesis has_available : getitem storage_doc' "diskAvailableRaw" = Ok available.
Hypothesis has_size : getitem storage_doc' "diskSizeRaw" = Ok size.
Hypothesis has_used : getitem storage_doc' "diskUseRaw" = Ok used.
Hypothesis has_percentage :
  getitem storage_doc' "diskUsagePercentage" = Ok percentage.
Hypothesis statistics_answered :
  upstream w (S (requests_sent s1)) (combine_url self "/statistics")
    = Response statistics_doc'.
Hypothesis statistics_valid : as_statistics statistics_doc' = Some us.

Lemma healthy_cycle_run :
  exists ms,
    get_immich_metrics w self fuel s
      = (Returns ms, requested self (requested self s1 "/storage") "/statistics")
    /\ map series ms
       = map (with_prefix (metrics_prefix (config self)))
           (cycle_series
              (py_str major ++ "." ++ py_str minor ++ "." ++ py_str patch)
              (first_names us)).
Proof.
  destruct (version_run fuel s s1 _ _ _ _ version_answered has_major has_minor
              has_patch) as (m & Hv & Sv).
  destruct (storage_run s1 _ _ _ _ _ storage_answered has_available has_size
              has_used has_percentage) as (ms2 & Hs & Ss).
  pose proof (users_stat_valid w self (requested self s1 "/storage")
                statistics_doc' us statistics_answered statistics_valid) as Hu.
  destruct (system_run (requested self (requested self s1 "/storage") "/statistics"))
    as (ms4 & Hy & Sy).
  eexists. split.
  - unfold get_immich_metrics.
    rewrite (bind_step _ _ _ _ _ Hv). cbv zeta.
    rewrite (bind_step _ _ _ _ _ Hs). cbv zeta.
    rewrite (bind_step _ _ _ _ _ Hu). cbv zeta.
    rewrite (bind_step _ _ _ _ _ Hy). reflexivity.
  - unfold cycle_series.
    rewrite !map_app, Ss, Sy, series_user_dicts. cbn [app map].
    rewrite Sv. rewrite <- !app_assoc. reflexivity.
Qed.

(** X18.  When the three endpoints answer with valid documents, the cycle
    returns, after the version fetch, with two more requests, and its
    records are, in this order: the version, the four of the storage, three
    per user, the four aggregates and the nine of the host; that is
    [3 n + 18] records for [n] users. *)
Theorem healthy_cycle_records :
  exists ms s',
    get_immich_metrics w self fuel s = (Returns ms, s')
    /\ requests_sent s' = (requests_sent s1 + 2)%nat
    /\ map series ms
       = map (with_prefix (metrics_prefix (config self)))
           (cycle_series
              (py_str major ++ "." ++ py_str minor ++ "." ++ py_str patch)
              (first_names us))
    /\ List.length ms = (3 * List.length us + 18)%nat.
Proof.
  destruct healthy_cycle_run as (ms & Hrun & Hser).
  exists ms. eexists. split; [exact Hrun|]. split; [cbn; lia|].
  split; [exact Hser|].
  rewrite <- (length_map series), Hser, length_map. unfold cycle_series.
  rewrite !length_app. cbn [List.length version_series storage_series
    aggregate_series system_series].
  assert (Hlen : forall l, List.length (flat_map user_series l)
                           = (3 * List.length l)%nat).
  { induction l as [|x l IH]; [reflexivity|].
    cbn [flat_map]. rewrite length_app, IH. cbn [List.length user_series]. lia. }
  rewrite Hlen. unfold first_names. rewrite length_map. lia.
Qed.

(** X19.  In such a cycle no two records are the same series, that is have the
    same name and the same labels, exactly when no two users have the same
    first name; two users who share it give records that collide. *)
Theorem series_unique_iff_first_names_differ :
  exists ms s',
    get_immich_metrics w self fuel s = (Returns ms, s')
    /\ (NoDup (map series ms) <-> NoDup (first_names us)).
Proof.
  destruct healthy_cycle_run as (ms & Hrun & Hser).
  exists ms. eexists. split; [exact Hrun|].
  rewrite Hser, NoDup_with_prefix. apply NoDup_cycle_series.
Qed.

End HealthyCycle.

(* ===================================================================== *)
(** * The further scenarios, run *)
(* ===================================================================== *)

Section FurtherScenarioFacts.
#[local] Existing Instance integer_runtime.

Lemma secret_file_round_trip_witness :
  get_config_value env_with_secret fs_with_secret "IMMICH_API_TOKEN" EmptyString start
    = (Returns "secret", start).
Proof.
  apply (secret_file_round_trip env_with_secret fs_with_secret "IMMICH_API_TOKEN"
           EmptyString "/run/secrets/token" EmptyString "secret" newline start).
  - reflexivity.
  - reflexivity.
  - reflexivity.
  - reflexivity.
  - split; [reflexivity|]. exists "t"%char. split; reflexivity.
Defined.

Lemma secret_file_wins_witness :
  get_config_value env_with_secret fs_with_secret "IMMICH_API_TOKEN" EmptyString start
    = (Returns "secret", start).
Proof.
  apply (proj1 (secret_file_wins env_with_secret fs_with_secret "IMMICH_API_TOKEN"
                  EmptyString "/run/secrets/token" ("secret" ++ newline) start
                  eq_refl eq_refl)).
Defined.

Lemma config_value_falls_back_witness :
  get_config_value env_with_secret fs_empty "IMMICH_API_TOKEN" EmptyString start
    = (Returns "from-env",
       logged start (EvLog "error" "Unable to read value for %s from %s: %s"))
  /\ get_config_value env_with_secret fs_empty "METRICS_PREFIX" "immich" start
     = (Returns "immich", start)
  /\ get_config_value env_with_secret fs_undecodable "IMMICH_API_TOKEN" EmptyString
       start
     = (Raises UnicodeDecodeError, start).
Proof.
  split; [|split].
  - apply (proj1 (config_value_falls_back env_with_secret fs_empty
                    "IMMICH_API_TOKEN" EmptyString start) "/run/secrets/token");
      reflexivity.
  - apply (proj1 (proj2 (config_value_falls_back env_with_secret fs_empty
                           "METRICS_PREFIX" "immich" start))).
    reflexivity.
  - apply (proj1 (proj2 (proj2 (config_value_falls_back env_with_secret
                                  fs_undecodable "IMMICH_API_TOKEN" EmptyString
                                  start))) "/run/secrets/token");
      reflexivity.
Defined.

Lemma check_server_up_time_waited_witness :
  exists s',
    check_server_up (up_after 302 PNone) "immich" "2283" 303 start = (Returns tt, s')
    /\ requests_sent s' = 303%nat
    /\ total (sleeps (events s')) = 3781.
Proof.
  apply (check_server_up_time_waited (up_after 302 PNone) "immich" "2283" 302 303
           start PNone).
  - intros i Hi. unfold up_after. cbn [start requests_sent Nat.add].
    destruct (Nat.ltb_spec i 302); [reflexivity | lia].
  - reflexivity.
  - lia.
Defined.

Lemma check_server_up_waits_forever_witness :
  exists s',
    check_server_up network_down "immich" "2283" 70 start = (Running, s')
    /\ requests_sent s' = 70%nat
    /\ sleeps (events s') = (repeat 1 60 ++ repeat 15 10)%list.
Proof.
  apply (check_server_up_waits_forever network_down "immich" "2283" 70 start).
  intros i. reflexivity.
Defined.

Lemma check_immich_api_key_any_answer_witness :
  exists s',
    check_immich_api_key (up_after 2 unauthorized_doc) "immich" "2283" "wrong-key"
      5 start = (Returns tt, s')
    /\ requests_sent s' = 3%nat
    /\ events s'
       = [ EvRequest "http://immich:2283/api/server/";
           EvLog "error" "CONNECTION ERROR. Possible API key error";
           EvLog "error" "{e}"; EvSleep 3;
           EvRequest "http://immich:2283/api/server/";
           EvLog "error" "CONNECTION ERROR. Possible API key error";
           EvLog "error" "{e}"; EvSleep 3;
           EvRequest "http://immich:2283/api/server/";
           EvLog "info" "Success." ]
    /\ sleeps (events s') = [3; 3].
Proof.
  apply (check_immich_api_key_any_answer (up_after 2 unauthorized_doc)
           "immich" "2283" "wrong-key" 2 5 start unauthorized_doc).
  - intros i Hi. unfold up_after. cbn [start requests_sent Nat.add].
    destruct (Nat.ltb_spec i 2); [reflexivity | lia].
  - reflexivity.
  - lia.
Defined.

Lemma check_immich_api_key_waits_forever_witness :
  exists s',
    check_immich_api_key network_down "immich" "2283" "key" 40 start = (Running, s')
    /\ requests_sent s' = 40%nat
    /\ sleeps (events s') = repeat 3 40.
Proof.
  apply (check_immich_api_key_waits_forever network_down "immich" "2283" "key" 40
           start).
  intros i. reflexivity.
Defined.

Lemma main_needs_connection_settings_witness :
  requests_sent
    (snd (main env_without_host fs_empty (up_after 0 PNone)
            (python_int (Some 4300%nat)) 5 start)) = 0%nat
  /\ (fst (main env_without_host fs_empty (up_after 0 PNone)
             (python_int (Some 4300%nat)) 5 start) = Raises (SystemExit 1)
      \/ fst (main env_without_host fs_empty (up_after 0 PNone)
                (python_int (Some 4300%nat)) 5 start) = Raises ValueError
      \/ fst (main env_without_host fs_empty (up_after 0 PNone)
                (python_int (Some 4300%nat)) 5 start) = Raises UnicodeDecodeError).
Proof.
  apply (main_needs_connection_settings env_without_host fs_empty
           (up_after 0 PNone) (python_int (Some 4300%nat)) 5 start).
  - left. reflexivity.
  - reflexivity.
Defined.


Lemma main_passes_the_probes_witness :
  exists s',
    main env_with_secret fs_with_secret (up_after 3 PNone)
      (python_int (Some 4300%nat)) 10 start
      = (Returns tt, s')
    /\ requests_sent s' = 5%nat
    /\ total (sleeps (events s')) = 4.
Proof.
  apply (main_passes_the_probes env_with_secret fs_with_secret (up_after 3 PNone)
           (python_int (Some 4300%nat)) 10 3 0 start
           "immich" "2283" "secret" "8000" "INFO" "immich" 8000 PNone PNone).
  all: try reflexivity; try discriminate; try lia.
  intros i Hi. unfold up_after. cbn [start requests_sent Nat.add].
  destruct (Nat.ltb_spec i 3); [reflexivity | lia].
Defined.

Lemma graceful_shutdown_unreachable_witness :
  exists n,
    {| requests_sent := 0; events := repeat (EvSleep 1) 3 |}
      = appended start (repeat (EvSleep 1) n)
    /\ ((@Raises unit TypeError = Running /\ n = 8%nat
         /\ forall i, (i < 8)%nat -> signal_in_third_sleep i = false)
        \/ (@Raises unit TypeError = Raises TypeError /\ (0 < n <= 8)%nat
            /\ signal_in_third_sleep (n - 1) = true)).
Proof.
  apply (graceful_shutdown_unreachable signal_in_third_sleep 8 start).
  reflexivity.
Defined.

Lemma signal_raises_type_error_witness :
  signal_arrives {| shutdown_count := 1 |} start = (Raises TypeError, start)
  /\ main_idle signal_in_third_sleep 8 SignalHandler_init start
     = (Raises TypeError, appended start (repeat (EvSleep 1) 3)).
Proof.
  apply (signal_raises_type_error signal_in_third_sleep 2 8
           {| shutdown_count := 1 |} start).
  - intros i Hi. destruct i as [|[|i]]; [reflexivity | reflexivity | lia].
  - reflexivity.
  - lia.
Defined.

Lemma statistics_failure_aborts_cycle_witness :
  collect world_statistics_down exporter 1 start
    = (Raises UnboundLocalError,
       {| requests_sent := 3;
          events := [ EvLog "info" "Requested the metrics";
                      EvRequest "http://immich:2283/api/server/version";
                      EvRequest "http://immich:2283/api/server/storage";
                      EvRequest "http://immich:2283/api/server/statistics";
                      EvLog "error" "API ERROR: can't get server statistic: %s" ] |}).
Proof.
  eapply (statistics_failure_aborts_cycle world_statistics_down exporter 1 start
            (requested exporter (entered start) "/version")
            (requested exporter (requested exporter (entered start) "/version")
               "/storage"));
    reflexivity.
Defined.

Lemma blank_user_name_aborts_cycle_witness :
  exists s', collect world_blank_name exporter 1 start = (Raises IndexError, s').
Proof.
  eexists. eapply proj2.
  eapply (blank_user_name_aborts_cycle world_blank_name exporter 1 start)
    with (before := [user_doc "Ann Lee" 3 1 100]) (after := [])
         (us := [ {| userName := "Ann Lee"; photos := 3; videos := 1;
                     usage := 100 |} ])
         (n := "  ") (p := 2) (v := 0) (u := 50);
    reflexivity.
Defined.

Lemma no_users_only_aggregates_witness :
  exists ms,
    get_immich_users_stat world_no_users exporter start
      = (Returns ms, requested exporter start "/statistics")
    /\ map shown ms
       = [ ("immich_server_stats_user_count", PInt 0, [], "gauge");
           ("immich_server_stats_photos_growth", PInt 0, [], "gauge");
           ("immich_server_stats_videos_growth", PInt 0, [], "gauge");
           ("immich_server_stats_usage_growth", PInt 0, [], "gauge") ].
Proof.
  apply (no_users_only_aggregates world_no_users exporter start
           (PDict [("usageByUser", PDict [])]) (PDict [])); reflexivity.
Defined.

Lemma first_name_labels_are_tokens_witness :
  "Ann" <> EmptyString /\ has_space "Ann" = false.
Proof.
  eapply (first_name_labels_are_tokens world_ok exporter start) with (k := "firstName").
  - cbv. reflexivity.
  - left. reflexivity.
  - left. reflexivity.
Defined.

Lemma collect_yields_gauges_witness :
  exists fams s',
    collect world_ok exporter 1 start = (Returns fams, s')
    /\ List.length fams = 24%nat
    /\ Forall (fun f => family_class f = "GaugeMetricFamily"
                        /\ exists vals v, samples f = [(vals, v)]
                             /\ List.length vals = List.length (labelnames f))
         fams.
Proof.
  eexists. eexists. split; [cbv; reflexivity|]. split; [reflexivity|].
  destruct (collect_yields_gauges world_ok exporter 1 start _ _ eq_refl)
    as (ms & s1 & _ & _ & _ & H).
  exact H.
Defined.

Lemma healthy_cycle_records_witness :
  exists ms s',
    get_immich_metrics world_ok exporter 1 start = (Returns ms, s')
    /\ requests_sent s' = 3%nat
    /\ map series ms
       = map (with_prefix "immich") (cycle_series "1.2.3" ["Ann"; "Bo"])
    /\ List.length ms = 24%nat.
Proof.
  eapply (healthy_cycle_records world_ok exporter 1 start
            (requested exporter start "/version") version_doc storage_doc
            statistics_doc (PInt 1) (PInt 2) (PInt 3)
            (PInt 100) (PInt 500) (PInt 400) (PInt 80)
            [ {| userName := "Ann Lee"; photos := 3; videos := 1; usage := 100 |};
              {| userName := "Bo Ng"; photos := 2; videos := 0; usage := 50 |} ]);
    reflexivity.
Defined.

Lemma series_unique_iff_first_names_differ_witness :
  (exists ms s',
     get_immich_metrics world_ok exporter 1 start = (Returns ms, s')
     /\ (NoDup (map series ms) <-> NoDup ["Ann"; "Bo"]))
  /\ (exists ms s',
        get_immich_metrics world_namesakes exporter 1 start = (Returns ms, s')
        /\ (NoDup (map series ms) <-> NoDup ["Ann"; "Ann"])).
Proof.
  split.
  - eapply (series_unique_iff_first_names_differ world_ok exporter 1 start
              (requested exporter start "/version") version_doc storage_doc
              statistics_doc (PInt 1) (PInt 2) (PInt 3)
              (PInt 100) (PInt 500) (PInt 400) (PInt 80)
              [ {| userName := "Ann Lee"; photos := 3; videos := 1; usage := 100 |};
                {| userName := "Bo Ng"; photos := 2; videos := 0; usage := 50 |} ]);
      reflexivity.
  - eapply (series_unique_iff_first_names_differ world_namesakes exporter 1 start
              (requested exporter start "/version") version_doc storage_doc
              _ (PInt 1) (PInt 2) (PInt 3)
              (PInt 100) (PInt 500) (PInt 400) (PInt 80)
              [ {| userName := "Ann Lee"; photos := 3; videos := 1; usage := 100 |};
                {| userName := "Ann Ng"; photos := 2; videos := 0; usage := 50 |} ]);
      reflexivity.
Defined.

End FurtherScenarioFacts.
